(** * Preflight checks of the SaftOS installer (pkg/preflight/checks.go)

    A shallow embedding of the five host checks ([CPUCheck], [MemoryCheck],
    [VirtCheck], [KVMHostCheck], [NetworkSpeedCheck]) together with the parts
    of the Go runtime and standard library they call: byte strings, UTF-8
    decoding, [strings.TrimSpace], [strings.Split], [bufio.Scanner] with
    [ScanLines], [strconv.Atoi], [fmt.Sscanf], [fmt.Sprintf], 64-bit [uint]
    and [int] arithmetic and [float32] rounding.

    A Go [string] is a sequence of bytes: it is modelled by [string], whose
    characters are the 8-bit [ascii] values.  Go's [int] and [uint] are the
    64-bit types of the platforms the installer is built for (amd64, arm64);
    they are modelled by [Z] with the wrap-around written out. *)

From Stdlib Require Import ZArith QArith Qround Qabs Qpower Lqa.
From Stdlib Require Import List String Ascii Bool Lia DecimalString SpecFloat.
From Stdlib Require Import DecimalPos.
Import ListNotations.

Local Open Scope Z_scope.

(* ================================================================== *)
(** * The Go side: runtime and standard library                        *)
(* ================================================================== *)

Module Go.

(** ** Bytes and machine integers *)

Definition byte_val (c : ascii) : Z := Z.of_N (N_of_ascii c).

Definition byte_of (n : Z) : ascii := ascii_of_N (Z.to_N (n mod 256)).

Definition bytes (s : string) : list ascii := list_ascii_of_string s.

Definition of_bytes (l : list ascii) : string := string_of_list_ascii l.

(** [len(s)], as a [Z]. *)
Definition len (s : string) : Z := Z.of_nat (String.length s).

Definition maxUint64 : Z := 2 ^ 64 - 1.
Definition maxInt64 : Z := 2 ^ 63 - 1.
Definition minInt64 : Z := - 2 ^ 63.

(** A [uint] result is kept modulo [2^64]. *)
Definition wrap_uint (n : Z) : Z := n mod 2 ^ 64.

Definition uint_add (a b : Z) : Z := wrap_uint (a + b).
Definition uint_shl (a k : Z) : Z := wrap_uint (Z.shiftl a k).
Definition uint_shr (a k : Z) : Z := Z.shiftr a k.
Definition uint_div (a b : Z) : Z := a / b.

(** ** unicode/utf8 *)

Definition RuneError : Z := 65533.

Definition is_cont (b lo hi : Z) : bool := (lo <=? b) && (b <=? hi).

(** The size of the encoding announced by a leading byte and the range
    accepted for the second byte (the table [first] and [acceptRanges] of
    package utf8); [None] for ASCII and invalid leading bytes. *)
Definition first (b : Z) : option (Z * Z * Z) :=
  if b <? 194 then None
  else if b <=? 223 then Some (2, 128, 191)
  else if b =? 224 then Some (3, 160, 191)
  else if b <=? 236 then Some (3, 128, 191)
  else if b =? 237 then Some (3, 128, 159)
  else if b <=? 239 then Some (3, 128, 191)
  else if b =? 240 then Some (4, 144, 191)
  else if b <=? 243 then Some (4, 128, 191)
  else if b =? 244 then Some (4, 128, 143)
  else None.

(** [utf8.DecodeRuneInString] on a non-empty input: the rune and its width
    in bytes.  An invalid or truncated encoding yields [RuneError] of
    width 1. *)
Definition DecodeRune (s : list ascii) : Z * nat :=
  match s with
  | [] => (RuneError, 0%nat)
  | c0 :: t =>
    let s0 := byte_val c0 in
    if s0 <? 128 then (s0, 1%nat)
    else match first s0 with
    | None => (RuneError, 1%nat)
    | Some (sz, lo, hi) =>
      match t with
      | [] => (RuneError, 1%nat)
      | c1 :: t1 =>
        let s1 := byte_val c1 in
        if negb (is_cont s1 lo hi) then (RuneError, 1%nat)
        else if sz <=? 2 then
          (Z.lor (Z.shiftl (Z.land s0 31) 6) (Z.land s1 63), 2%nat)
        else match t1 with
        | [] => (RuneError, 1%nat)
        | c2 :: t2 =>
          let s2 := byte_val c2 in
          if negb (is_cont s2 128 191) then (RuneError, 1%nat)
          else if sz <=? 3 then
            (Z.lor (Z.shiftl (Z.land s0 15) 12)
               (Z.lor (Z.shiftl (Z.land s1 63) 6) (Z.land s2 63)), 3%nat)
          else match t2 with
          | [] => (RuneError, 1%nat)
          | c3 :: _ =>
            let s3 := byte_val c3 in
            if negb (is_cont s3 128 191) then (RuneError, 1%nat)
            else
              (Z.lor (Z.shiftl (Z.land s0 7) 18)
                 (Z.lor (Z.shiftl (Z.land s1 63) 12)
                    (Z.lor (Z.shiftl (Z.land s2 63) 6) (Z.land s3 63))),
               4%nat)
          end
        end
      end
    end
  end.

(** The runes of a byte string from left to right, each with the bytes it
    was decoded from ([skip] counts the bytes of the current rune still to
    be passed over). *)
Fixpoint chunks_from (skip : nat) (s : list ascii) : list (Z * list ascii) :=
  match s with
  | [] => []
  | _ :: t =>
    match skip with
    | S k => chunks_from k t
    | O =>
      let (r, w) := DecodeRune s in
      (r, firstn w s) :: chunks_from (Nat.pred w) t
    end
  end.

Definition chunks (s : string) : list (Z * list ascii) :=
  chunks_from 0 (bytes s).

Definition runes (s : string) : list Z := map fst (chunks s).

(** [utf8.AppendRune]. *)
Definition EncodeRune (r : Z) : list ascii :=
  if (0 <=? r) && (r <? 128) then [byte_of r]
  else if (0 <=? r) && (r <? 2048) then
    [byte_of (Z.lor 192 (Z.shiftr r 6)); byte_of (Z.lor 128 (Z.land r 63))]
  else if (r <? 0) || (1114111 <? r) || ((55296 <=? r) && (r <=? 57343)) then
    [byte_of 239; byte_of 191; byte_of 189]
  else if r <? 65536 then
    [byte_of (Z.lor 224 (Z.shiftr r 12));
     byte_of (Z.lor 128 (Z.land (Z.shiftr r 6) 63));
     byte_of (Z.lor 128 (Z.land r 63))]
  else
    [byte_of (Z.lor 240 (Z.shiftr r 18));
     byte_of (Z.lor 128 (Z.land (Z.shiftr r 12) 63));
     byte_of (Z.lor 128 (Z.land (Z.shiftr r 6) 63));
     byte_of (Z.lor 128 (Z.land r 63))].

Definition string_of_runes (rs : list Z) : string :=
  of_bytes (flat_map EncodeRune rs).

(** [unicode.IsSpace]; package fmt keeps a table of its own ([isSpace]) that
    lists the same code points. *)
Definition IsSpace (r : Z) : bool :=
  ((9 <=? r) && (r <=? 13)) || (r =? 32) || (r =? 133) || (r =? 160)
  || (r =? 5760) || ((8192 <=? r) && (r <=? 8202))
  || (r =? 8232) || (r =? 8233) || (r =? 8239) || (r =? 8287) || (r =? 12288).

(** ** package strings *)

Fixpoint drop_space (l : list (Z * list ascii)) : list (Z * list ascii) :=
  match l with
  | [] => []
  | (r, b) :: t => if IsSpace r then drop_space t else l
  end.

(** [strings.TrimSpace]: the input without its leading and trailing white
    space, as a slice of the same bytes. *)
Definition TrimSpace (s : string) : string :=
  of_bytes (flat_map snd (rev (drop_space (rev (drop_space (chunks s)))))).

(** [strings.Split(s, "\n")]: the pieces between line feeds; there is always
    at least one piece. *)
Fixpoint split_lf (cur : list ascii) (s : list ascii) : list string :=
  match s with
  | [] => [of_bytes (rev cur)]
  | c :: t =>
    if byte_val c =? 10 then of_bytes (rev cur) :: split_lf [] t
    else split_lf (c :: cur) t
  end.

Definition Split_lf (s : string) : list string := split_lf [] (bytes s).

(** ** package bufio: a Scanner with the default split function ScanLines *)

Definition MaxScanTokenSize : Z := 64 * 1024.

Definition dropCR (s : string) : string :=
  match rev (bytes s) with
  | c :: t => if byte_val c =? 13 then of_bytes (rev t) else s
  | [] => s
  end.

Fixpoint deliver (ls : list string) : list string :=
  match ls with
  | [] => []
  | l :: t => if len l <? MaxScanTokenSize then dropCR l :: deliver t else []
  end.

(** The tokens that successive calls of [Scan] deliver for a file of the
    given content: the lines without their terminator (a final line without
    line feed included, an empty remainder not), until a line that does not
    fit the buffer of [MaxScanTokenSize] bytes makes [Scan] return false. *)
Definition ScanLines (content : string) : list string :=
  let ls := Split_lf content in
  deliver (match rev ls with
           | EmptyString :: t => rev t
           | _ => ls
           end).

(** ** package strconv *)

Inductive NumErr : Type := ErrSyntax | ErrRange.

Definition is_digit (c : ascii) : bool :=
  (48 <=? byte_val c) && (byte_val c <=? 57).

(** The loop of [strconv.ParseUint(s, 10, 64)] over the bytes of [s], [n]
    being the value read so far: the first byte that is no digit is a syntax
    error, the first digit that takes the value beyond [maxUint64] is a
    range error and returns [maxUint64] at once. *)
Fixpoint parse_digits (n : Z) (s : list ascii) : Z * option NumErr :=
  match s with
  | [] => (n, None)
  | c :: t =>
    if negb (is_digit c) then (0, Some ErrSyntax)
    else
      let d := byte_val c - 48 in
      if maxUint64 / 10 + 1 <=? n then (maxUint64, Some ErrRange)
      else
        let n1 := n * 10 + d in
        if maxUint64 <? n1 then (maxUint64, Some ErrRange)
        else parse_digits n1 t
  end.

Definition ParseUint (s : string) : Z * option NumErr :=
  match bytes s with
  | [] => (0, Some ErrSyntax)
  | l => parse_digits 0 l
  end.

(** [strconv.ParseInt(s, 10, 0)]. *)
Definition ParseInt (s : string) : Z * option NumErr :=
  match bytes s with
  | [] => (0, Some ErrSyntax)
  | c :: t =>
    let neg := byte_val c =? 45 in
    let rest := if (byte_val c =? 43) || neg then of_bytes t else s in
    match ParseUint rest with
    | (_, Some ErrSyntax) => (0, Some ErrSyntax)
    | (un, _) =>
      let cutoff := 2 ^ 63 in
      if negb neg && (cutoff <=? un) then (cutoff - 1, Some ErrRange)
      else if neg && (cutoff <? un) then (- cutoff, Some ErrRange)
      else (if neg then - un else un, None)
    end
  end.

Fixpoint atoi_fast (n : Z) (s : list ascii) : option Z :=
  match s with
  | [] => Some n
  | c :: t => if is_digit c then atoi_fast (n * 10 + (byte_val c - 48)) t
              else None
  end.

(** [strconv.Atoi]: short inputs take the fast path, the others go through
    [ParseInt]. *)
Definition Atoi (s : string) : Z * option NumErr :=
  if (0 <? len s) && (len s <? 19) then
    match bytes s with
    | [] => (0, Some ErrSyntax)
    | c :: t =>
      let signed := (byte_val c =? 45) || (byte_val c =? 43) in
      let ds := if signed then t else c :: t in
      match ds with
      | [] => (0, Some ErrSyntax)
      | _ =>
        match atoi_fast 0 ds with
        | None => (0, Some ErrSyntax)
        | Some n => (if byte_val c =? 45 then - n else n, None)
        end
      end
    end
  else ParseInt s.

(** ** package fmt: scanning *)

(** The operands of a scan are pointers; what a verb reads depends on the
    type pointed to.  The checks scan into [*uint] and [*string] only. *)
Inductive operand : Type := OUint | OString.

Inductive value : Type :=
| VUint (n : Z)
| VString (s : string).

Definition is_digit_rune (r : Z) : bool := (48 <=? r) && (r <=? 57).

Fixpoint take_while (p : Z -> bool) (l : list Z) : list Z :=
  match l with
  | r :: t => if p r then r :: take_while p t else []
  | [] => []
  end.

Fixpoint drop_while (p : Z -> bool) (l : list Z) : list Z :=
  match l with
  | r :: t => if p r then drop_while p t else l
  | [] => []
  end.

Definition blank (r : Z) : bool := IsSpace r && negb (r =? 10).

(** [ss.SkipSpace] of a scanner made by [Sscanf] (a line feed is no space
    there): [None] is the error "unexpected newline". *)
Definition SkipSpace (input : list Z) : option (list Z) :=
  match drop_while blank input with
  | r :: t => if r =? 10 then None else Some (r :: t)
  | [] => Some []
  end.

(** A run of spaces of the format that holds no line feed ([ss.advance]):
    it matches the end of the input, or one or more spaces of the input,
    none of them a line feed at the first position. *)
Definition advance_space (input : list Z) : option (list Z) :=
  match input with
  | [] => Some []
  | r :: _ =>
    if negb (IsSpace r) then None
    else if r =? 10 then None
    else Some (drop_while blank input)
  end.

(** [ss.scanOne] for the verbs and operands of this package: [%d] into a
    [*uint] ([ss.scanUint]: digits only, no sign, failing when the number
    does not fit 64 bits) and [%s] into a [*string] ([ss.convertString]: the
    next word).  Any other combination is an error. *)
Definition scanOne (verb : Z) (op : operand) (input : list Z)
  : option (value * list Z) :=
  match SkipSpace input with
  | None => None
  | Some [] => None
  | Some (r :: t) =>
    match op with
    | OUint =>
      if verb =? 100 then
        let tok := take_while is_digit_rune (r :: t) in
        match tok with
        | [] => None
        | _ =>
          match ParseUint (string_of_runes tok) with
          | (n, None) => Some (VUint n, drop_while is_digit_rune (r :: t))
          | (_, Some _) => None
          end
        end
      else None
    | OString =>
      if verb =? 115 then
        let notSpace := fun c => negb (IsSpace c) in
        Some (VString (string_of_runes (take_while notSpace (r :: t))),
              drop_while notSpace (r :: t))
      else None
    end
  end.

(** [ss.doScanf]: the operands stored before the scan ends or fails, in
    order; their number is the count that [Sscanf] returns.  [in_run] tells
    that the preceding character of the format was a space of the run being
    matched.  Formats with a line feed, a width or [%%] do not occur in this
    package and deliver nothing more here. *)
Fixpoint doScanf (format : list Z) (in_run : bool) (ops : list operand)
    (input : list Z) : list value :=
  match format with
  | [] => []
  | f :: format' =>
    if f =? 10 then []
    else if IsSpace f then
      if in_run then doScanf format' true ops input
      else match advance_space input with
           | None => []
           | Some input' => doScanf format' true ops input'
           end
    else if f =? 37 then
      match format' with
      | [] => []
      | verb :: format'' =>
        match SkipSpace input with
        | None => []
        | Some input1 =>
          match ops with
          | [] => []
          | op :: ops' =>
            match scanOne verb op input1 with
            | None => []
            | Some (v, input2) => v :: doScanf format'' false ops' input2
            end
          end
        end
      end
    else
      match input with
      | [] => []
      | r :: input' => if r =? f then doScanf format' false ops input' else []
      end
  end.

Definition Sscanf (str format : string) (ops : list operand) : list value :=
  doScanf (runes format) false ops (runes str).

(** ** float32

    A finite [float32] is modelled by the rational it denotes; an operation
    is the exact operation followed by rounding to the nearest value with a
    24-bit significand, ties to even (IEEE 754 binary32, subnormals
    included).  No value of this package comes near the overflow threshold
    [2^128], so infinities are not represented. *)

Definition pow2 (e : Z) : Q := Qpower 2 e.

(** [floor (log2 x)] for [0 < x]. *)
Definition binade (x : Q) : Z :=
  let e0 := Z.log2 (Qnum x) - Z.log2 (Zpos (Qden x)) in
  if Qle_bool (pow2 e0) x then e0 else e0 - 1.

(** Nearest integer, ties to even. *)
Definition rne (x : Q) : Z :=
  let f := Qfloor x in
  match Qcompare (2 * (x - inject_Z f)) 1 with
  | Lt => f
  | Gt => f + 1
  | Eq => if Z.even f then f else f + 1
  end.

(** Exponent of the unit in the last place of a positive [x]. *)
Definition ulp_exp (x : Q) : Z := Z.max (binade x - 23) (-149).

Definition round32_pos (x : Q) : Q :=
  let s := ulp_exp x in
  Qred (inject_Z (rne (x / pow2 s)) * pow2 s).

Definition round32 (x : Q) : Q :=
  match Qcompare x 0 with
  | Eq => 0
  | Gt => round32_pos x
  | Lt => - round32_pos (- x)
  end.

(** Conversion of an integer, or of an untyped constant, to [float32]. *)
Definition float32_of_Z (n : Z) : Q := round32 (inject_Z n).
Definition float32_const (q : Q) : Q := round32 q.

Definition float32_mul (x y : Q) : Q := round32 (x * y).
Definition float32_div (x y : Q) : Q := round32 (x / y).
Definition float32_lt (x y : Q) : bool := negb (Qle_bool y x).

(** The same operations in the IEEE 754 formalisation of the standard
    library, instantiated at binary32 (24 bits of precision, exponents
    below 128); they serve as a reference for the model above. *)
Definition binary32_of_Z (n : Z) : spec_float :=
  binary_normalize 24 128 n 0 false.

Definition binary32_div (x y : spec_float) : spec_float := SFdiv 24 128 x y.
Definition binary32_mul (x y : spec_float) : spec_float := SFmul 24 128 x y.

Definition Q_of_binary32 (f : spec_float) : option Q :=
  match f with
  | S754_zero _ => Some 0%Q
  | S754_finite s m e =>
    Some (Qred ((if s then -1 else 1) * inject_Z (Zpos m) * pow2 e))%Q
  | _ => None
  end.

Definition same_value (f : spec_float) (x : Q) : bool :=
  match Q_of_binary32 f with
  | Some y => Qeq_bool y x
  | None => false
  end.

(** ** package strconv and fmt: printing *)

(** [%d] of an integer: its decimal digits, with a minus sign when
    negative. *)
Definition FormatInt (n : Z) : string := NilZero.string_of_int (Z.to_int n).

Definition pow10 (e : Z) : Q := Qpower 10 e.

Fixpoint log10_up (fuel : nat) (k : Z) (x : Q) : Z :=
  match fuel with
  | O => k
  | S f => if Qle_bool (pow10 (k + 1)) x then log10_up f (k + 1) x else k
  end.

Fixpoint log10_down (fuel : nat) (k : Z) (x : Q) : Z :=
  match fuel with
  | O => k
  | S f => if Qle_bool (pow10 k) x then k else log10_down f (k - 1) x
  end.

(** [floor (log10 x)] for a positive [float32]. *)
Definition ilog10 (x : Q) : Z :=
  if Qle_bool 1 x then log10_up 64 0 x else log10_down 64 (-1) x.

(** The rationals that round to the [float32] value [v]: the interval
    between the midpoints to its neighbours, closed when the significand of
    [v] is even. *)
Definition rounding_interval (v : Q) : Q * Q * bool :=
  let s := ulp_exp v in
  let mant := Qfloor (v / pow2 s) in
  let hi := (v + pow2 (s - 1))%Q in
  let lo := if (mant =? 2 ^ 23) && (-149 <? s) then (v - pow2 (s - 2))%Q
            else (v - pow2 (s - 1))%Q in
  (lo, hi, Z.even mant).

Definition inside (i : Q * Q * bool) (d : Q) : bool :=
  let '(lo, hi, closed) := i in
  if closed then Qle_bool lo d && Qle_bool d hi
  else negb (Qle_bool d lo) && negb (Qle_bool hi d).

(** The shortest decimal [c * 10^k] that rounds to [v], the nearest to [v]
    among those of its length: tried with [nd] digits, then with more. *)
Fixpoint shortest (fuel : nat) (nd : Z) (v : Q) (p10 : Z) (i : Q * Q * bool)
  : Z * Z :=
  match fuel with
  | O => (0, 0)
  | S f =>
    let k := p10 - nd + 1 in
    let t := (v / pow10 k)%Q in
    let c1 := Qfloor t in
    let c2 := c1 + 1 in
    let ok1 := inside i (inject_Z c1 * pow10 k)%Q in
    let ok2 := inside i (inject_Z c2 * pow10 k)%Q in
    if ok1 && ok2 then (rne t, k)
    else if ok1 then (c1, k)
    else if ok2 then (c2, k)
    else shortest f (nd + 1) v p10 i
  end.

Fixpoint strip_zeros (fuel : nat) (c k : Z) : Z * Z :=
  match fuel with
  | O => (c, k)
  | S f => if (c mod 10 =? 0) && negb (c =? 0) then strip_zeros f (c / 10) (k + 1)
           else (c, k)
  end.

Definition zeros (n : Z) : list ascii := repeat "0"%char (Z.to_nat n).

(** Digit [j] of the digit string [d], ["0"] outside of it. *)
Definition digit_at (d : list ascii) (j : Z) : ascii :=
  if (0 <=? j) && (j <? Z.of_nat (List.length d)) then nth (Z.to_nat j) d "0"%char
  else "0"%char.

(** [%e] with [prec] digits after the point ([strconv.fmtE]). *)
Definition fmtE (d : list ascii) (dp : Z) (prec : Z) : string :=
  let nd := Z.of_nat (List.length d) in
  let frac :=
    if 0 <? prec then
      "."%char :: map (digit_at d) (map Z.of_nat (seq 1 (Z.to_nat prec)))
    else [] in
  let e := if nd =? 0 then 0 else dp - 1 in
  let sign := if e <? 0 then "-"%char else "+"%char in
  let ds := bytes (FormatInt (Z.abs e)) in
  let ds := if Z.abs e <? 10 then "0"%char :: ds else ds in
  of_bytes (digit_at d 0 :: frac ++ "e"%char :: sign :: ds).

(** [%f] with [prec] digits after the point ([strconv.fmtF]). *)
Definition fmtF (d : list ascii) (dp : Z) (prec : Z) : string :=
  let nd := Z.of_nat (List.length d) in
  let int_part :=
    if 0 <? dp then firstn (Z.to_nat (Z.min nd dp)) d ++ zeros (dp - Z.min nd dp)
    else ["0"%char] in
  let frac :=
    if 0 <? prec then
      "."%char :: map (fun i => digit_at d (dp + Z.of_nat i))
                      (seq 0 (Z.to_nat prec))
    else [] in
  of_bytes (int_part ++ frac).

(** [%g] of a finite [float32] without flags: the shortest digits that
    identify the value, in [%e] form when the decimal exponent is below -4
    or at least 6 ([eprec] of [strconv.FormatFloat] in shortest mode), in
    [%f] form otherwise. *)
Definition FormatFloat32 (v : Q) : string :=
  match Qcompare v 0 with
  | Eq => "0"
  | c =>
    let a := Qabs v in
    let p10 := ilog10 a in
    let (c0, k0) := shortest 12 1 a p10 (rounding_interval a) in
    let (c1, k1) := strip_zeros 12 c0 k0 in
    let d := bytes (FormatInt c1) in
    let nd := Z.of_nat (List.length d) in
    let dp := nd + k1 in
    let e := dp - 1 in
    let body :=
      if (e <? -4) || (6 <=? e) then fmtE d dp (nd - 1)
      else fmtF d dp (Z.max (nd - dp) 0) in
    match c with
    | Lt => String "-"%char body
    | _ => body
    end
  end.

Inductive arg : Type :=
| AInt (n : Z)
| AString (s : string)
| AFloat32 (v : Q).

(** One verb applied to its operand.  The checks pair [%d] with integers,
    [%s] with strings and [%g] with a [float32]; a mismatch is reported by
    package fmt inside the output and is rendered here by a marker. *)
Definition format_verb (verb : ascii) (a : arg) : string :=
  match a with
  | AInt n =>
    if byte_val verb =? 100 then FormatInt n
    else String "%" (String "!" (String verb "(int)"))
  | AString s =>
    if byte_val verb =? 115 then s
    else String "%" (String "!" (String verb "(string)"))
  | AFloat32 v =>
    if byte_val verb =? 103 then FormatFloat32 v
    else String "%" (String "!" (String verb "(float32)"))
  end.

Fixpoint sprintf (format : list ascii) (args : list arg) : string :=
  match format with
  | [] => EmptyString
  | c :: t =>
    if byte_val c =? 37 then
      match t with
      | [] => "%!(NOVERB)"
      | verb :: t' =>
        if byte_val verb =? 37 then String "%" (sprintf t' args)
        else
          match args with
          | [] => (String "%" (String "!" (String verb "(MISSING)"))
                   ++ sprintf t' [])%string
          | a :: args' => (format_verb verb a ++ sprintf t' args')%string
          end
      end
    else String c (sprintf t args)
  end.

(** [fmt.Sprintf] for formats without flags, width or precision. *)
Definition Sprintf (format : string) (args : list arg) : string :=
  sprintf (bytes format) args.

(** ** Errors

    The error values that reach the checks: an errno of the operating
    system, the sentinel [fs.ErrNotExist], a text made by [errors.New] or
    [fmt.Errorf], a failed system call on a path ([*fs.PathError], which
    wraps its cause), a command that ended with a non-zero status
    ([*exec.ExitError]) or that could not be started ([*exec.Error], which
    wraps its cause). *)
Inductive error : Type :=
| Errno (n : Z)
| ErrNotExist
| ErrorString (text : string)
| PathError (op path : string) (cause : error)
| ExitError (status : Z)
| ExecError (name : string) (cause : error).

Definition ENOENT : Z := 2.

(** [errors.Is(err, fs.ErrNotExist)] for a non-nil [err]: the chain of
    wrapped errors is searched for the sentinel or for an errno that
    declares itself as such ([syscall.Errno.Is]). *)
Fixpoint Is_ErrNotExist (e : error) : bool :=
  match e with
  | Errno n => n =? ENOENT
  | ErrNotExist => true
  | ErrorString _ => false
  | PathError _ _ cause => Is_ErrNotExist cause
  | ExitError _ => false
  | ExecError _ cause => Is_ErrNotExist cause
  end.

(** The method [Error] of an error value. *)
Fixpoint Error (e : error) : string :=
  match e with
  | Errno n => ("errno " ++ FormatInt n)%string
  | ErrNotExist => "file does not exist"
  | ErrorString text => text
  | PathError op path cause => (op ++ " " ++ path ++ ": " ++ Error cause)%string
  | ExitError status => ("exit status " ++ FormatInt status)%string
  | ExecError name cause => ("exec: " ++ name ++ ": " ++ Error cause)%string
  end.

End Go.

(* ================================================================== *)
(** * Package preflight                                                *)
(* ================================================================== *)

Module preflight.
Import Go.

Local Open Scope string_scope.
Local Open Scope Z_scope.

(** Constants from the hardware requirements of the documentation. *)
Definition MinCPUTest : Z := 8.
Definition MinCPUProd : Z := 16.
Definition MinMemoryTest : Z := 32.
Definition MinMemoryProd : Z := 64.
Definition MinNetworkGbpsTest : Z := 1.
Definition MinNetworkGbpsProd : Z := 10.

(** The package variables that unit tests replace. *)
Definition procMemInfo : string := "/proc/meminfo".
Definition devKvm : string := "/dev/kvm".
Definition sysClassNetDevSpeed : string := "/sys/class/net/%s/speed".

(** The host as the checks see it.  [execCommand] stands for
    [execCommand(name, args...).Output()]: the captured standard output and
    the error, which is non-nil when the command cannot be started or exits
    with a non-zero status (the output may then be non-empty all the same).
    [Open] yields the bytes that the scanner reads from the opened file. *)
Record Host : Type := {
  execCommand : string -> list string -> string * option error;
  Open : string -> string + error;
  Stat : string -> option error;
  ReadFile : string -> string + error
}.

(** The result of [Run]: the message and the error ([None] is nil). *)
Definition result : Type := (string * option error)%type.

(** The interface [Check]. *)
Class Check (T : Type) : Type := Run : T -> Host -> result.

Inductive CPUCheck : Type := mkCPUCheck.
Inductive MemoryCheck : Type := mkMemoryCheck.
Inductive VirtCheck : Type := mkVirtCheck.
Inductive KVMHostCheck : Type := mkKVMHostCheck.
Record NetworkSpeedCheck : Type := mkNetworkSpeedCheck { Dev : string }.

(** ** CPUCheck *)

Definition CPUCheck_Run (c : CPUCheck) (h : Host) : result :=
  let (out, err) := execCommand h "/usr/bin/nproc" ["--all"] in
  match err with
  | Some e => (EmptyString, Some e)
  | None =>
    let nproc := fst (Atoi (TrimSpace out)) in
    if nproc <? MinCPUTest then
      (Sprintf "Only %d CPU cores detected. SaftOS requires at least %d cores for testing and %d for production use."
         [AInt nproc; AInt MinCPUTest; AInt MinCPUProd], None)
    else if nproc <? MinCPUProd then
      (Sprintf "%d CPU cores detected. SaftOS requires at least %d cores for production use."
         [AInt nproc; AInt MinCPUProd], None)
    else (EmptyString, None)
  end.

(** ** MemoryCheck *)

Definition rangeSizeToKiB (rangeSize : Z) (unit : string) : Z :=
  if String.eqb unit "GB" then uint_shl rangeSize 20
  else if String.eqb unit "MB" then uint_shl rangeSize 10
  else if String.eqb unit "kB" then rangeSize
  else if String.eqb unit "bytes" then uint_shr rangeSize 10
  else 0.

Definition huge_unit (unit : string) : bool :=
  String.eqb unit "TB" || String.eqb unit "PB"
  || String.eqb unit "EB" || String.eqb unit "ZB".

(** The loop over the lines of the dmidecode output: [memTotalKiB] is the
    sum so far, the second component collects what is logged.  A record with
    an enormous unit sets the total to 1 TiB and leaves the loop. *)
Fixpoint scan_ranges (lines : list string) (memTotalKiB : Z)
  : Z * list string :=
  match lines with
  | [] => (memTotalKiB, [])
  | line :: rest =>
    match Sscanf (TrimSpace line) "Range Size: %d %s" [OUint; OString] with
    | [VUint rangeSize; VString unit] =>
      if huge_unit unit then
        (Z.shiftl 1 30,
         [Sprintf "Found Memory Array Mapped Address with Range Size %d %s, assuming 1 TiB RAM for preflight check"
            [AInt rangeSize; AString unit]])
      else scan_ranges rest (uint_add memTotalKiB (rangeSizeToKiB rangeSize unit))
    | _ => scan_ranges rest memTotalKiB
    end
  end.

(** The first part of [Run]: the total that dmidecode yields, zero when the
    command fails. *)
Definition dmidecode_total (h : Host) : Z * list string :=
  let (out, err) := execCommand h "/usr/sbin/dmidecode" ["-t"; "19"] in
  match err with
  | None => scan_ranges (Split_lf out) 0
  | Some _ => (0, [])
  end.

(** The loop over [scanner.Scan()]: the first line on which the scan stores
    a number ends it. *)
Fixpoint scan_meminfo (lines : list string) (memTotalKiB : Z) : Z :=
  match lines with
  | [] => memTotalKiB
  | line :: rest =>
    match Sscanf line "MemTotal: %d kB" [OUint] with
    | [VUint n] => n
    | _ => scan_meminfo rest memTotalKiB
    end
  end.

(** The last part of [Run]: the report on [memTotalKiB] under the allowance
    [wiggleRoom]. *)
Definition report (memTotalKiB : Z) (wiggleRoom : Q) : result :=
  let memTotalMiB := uint_div memTotalKiB (Z.shiftl 1 10) in
  let memTotalGiB := uint_div memTotalKiB (Z.shiftl 1 20) in
  let memReported :=
    if memTotalGiB <? 1 then Sprintf "%dMiB" [AInt memTotalMiB]
    else Sprintf "%dGiB" [AInt memTotalGiB] in
  if float32_lt (float32_of_Z memTotalGiB)
       (float32_mul (float32_of_Z MinMemoryTest) wiggleRoom) then
    (Sprintf "Only %s RAM detected. SaftOS requires at least %dGiB for testing and %dGiB for production use."
       [AString memReported; AInt MinMemoryTest; AInt MinMemoryProd], None)
  else if float32_lt (float32_of_Z memTotalGiB)
            (float32_mul (float32_of_Z MinMemoryProd) wiggleRoom) then
    (Sprintf "%s RAM detected. SaftOS requires at least %dGiB for production use."
       [AString memReported; AInt MinMemoryProd], None)
  else (EmptyString, None).

(** [Run] with the lines it logs. *)
Definition MemoryCheck_exec (c : MemoryCheck) (h : Host)
  : result * list string :=
  let (memTotalKiB, logged) := dmidecode_total h in
  if memTotalKiB =? 0 then
    match Open h procMemInfo with
    | inr err => ((EmptyString, Some err), logged)
    | inl meminfo =>
      let memTotalKiB := scan_meminfo (ScanLines meminfo) memTotalKiB in
      if memTotalKiB =? 0 then
        ((EmptyString, Some (ErrorString "unable to extract MemTotal from /proc/meminfo")),
         logged)
      else (report memTotalKiB (float32_const (9 # 10)), logged)
    end
  else (report memTotalKiB (float32_const 1), logged).

Definition MemoryCheck_Run (c : MemoryCheck) (h : Host) : result :=
  fst (MemoryCheck_exec c h).

(** ** VirtCheck *)

Definition VirtCheck_Run (c : VirtCheck) (h : Host) : result :=
  let (out, err) := execCommand h "/usr/bin/systemd-detect-virt" ["--vm"] in
  let virt := TrimSpace out in
  match err with
  | Some e => if String.eqb virt "none" then (EmptyString, None) else (EmptyString, Some e)
  | None =>
    (Sprintf "System is virtualized (%s) which is not supported in production."
       [AString virt], None)
  end.

(** ** KVMHostCheck *)

Definition KVMHostCheck_Run (c : KVMHostCheck) (h : Host) : result :=
  match Stat h devKvm with
  | Some e =>
    if Is_ErrNotExist e then
      ("SaftOS requires hardware-assisted virtualization, but /dev/kvm does not exist.",
       None)
    else (EmptyString, Some e)
  | None => (EmptyString, None)
  end.

(** ** NetworkSpeedCheck *)

Definition NetworkSpeedCheck_Run (c : NetworkSpeedCheck) (h : Host) : result :=
  let speedPath := Sprintf sysClassNetDevSpeed [AString (Dev c)] in
  match ReadFile h speedPath with
  | inr err => (EmptyString, Some err)
  | inl out =>
    let speedMbps := fst (Atoi (TrimSpace out)) in
    if speedMbps <? 1 then
      (EmptyString, Some (ErrorString
                   (Sprintf "unable to determine NIC speed from %s (got %d)"
                      [AString speedPath; AInt speedMbps])))
    else
      let speedGbps := float32_div (float32_of_Z speedMbps) (float32_of_Z 1000) in
      if float32_lt speedGbps (float32_of_Z MinNetworkGbpsTest) then
        (Sprintf "Link speed of %s is only %dMpbs. SaftOS requires at least %dGbps for testing and %dGbps for production use."
           [AString (Dev c); AInt speedMbps; AInt MinNetworkGbpsTest;
            AInt MinNetworkGbpsProd], None)
      else if float32_lt speedGbps (float32_of_Z MinNetworkGbpsProd) then
        (Sprintf "Link speed of %s is %gGbps. SaftOS requires at least %dGbps for production use."
           [AString (Dev c); AFloat32 speedGbps; AInt MinNetworkGbpsProd], None)
      else (EmptyString, None)
  end.

#[export] Instance Check_CPUCheck : Check CPUCheck := CPUCheck_Run.
#[export] Instance Check_MemoryCheck : Check MemoryCheck := MemoryCheck_Run.
#[export] Instance Check_VirtCheck : Check VirtCheck := VirtCheck_Run.
#[export] Instance Check_KVMHostCheck : Check KVMHostCheck := KVMHostCheck_Run.
#[export] Instance Check_NetworkSpeedCheck : Check NetworkSpeedCheck :=
  NetworkSpeedCheck_Run.

End preflight.

(* ================================================================== *)
(** * Vocabulary of the statements                                     *)
(* ================================================================== *)

Module Spec.
Import Go preflight.

Local Open Scope string_scope.
Local Open Scope Z_scope.

(** The record that a line of the dmidecode output declares, if any: the
    line, trimmed, scans as [Range Size: <n> <unit>]. *)
Definition range_record (line : string) : option (Z * string) :=
  match Sscanf (TrimSpace line) "Range Size: %d %s" [OUint; OString] with
  | [VUint n; VString unit] => Some (n, unit)
  | _ => None
  end.

Fixpoint records_of (lines : list string) : list (Z * string) :=
  match lines with
  | [] => []
  | line :: rest =>
    match range_record line with
    | Some r => r :: records_of rest
    | None => records_of rest
    end
  end.

(** The records of a dmidecode output, in order. *)
Definition records (out : string) : list (Z * string) :=
  records_of (Split_lf out).

(** The size of a record in kibibytes as the specification words it, in
    unbounded integers: GB shifted left by 20 bits, MB by 10, kB as it is,
    bytes shifted right by 10; a unit outside the list counts for nothing. *)
Definition KiB_of_record (r : Z * string) : Z :=
  let (n, unit) := r in
  if String.eqb unit "GB" then Z.shiftl n 20
  else if String.eqb unit "MB" then Z.shiftl n 10
  else if String.eqb unit "kB" then n
  else if String.eqb unit "bytes" then Z.shiftr n 10
  else 0.

Definition sum_KiB (recs : list (Z * string)) : Z :=
  fold_right (fun r acc => KiB_of_record r + acc) 0 recs.

Definition has_huge (recs : list (Z * string)) : bool :=
  existsb (fun r => huge_unit (snd r)) recs.

(** The total of the primary source as the specification words it: 1 TiB
    as soon as one record has an enormous unit, the sum of the sizes
    otherwise, held in a 64-bit word. *)
Definition spec_total (recs : list (Z * string)) : Z :=
  if has_huge recs then 2 ^ 30 else sum_KiB recs mod 2 ^ 64.

(** The number that a line of the memory-info file declares, if any: the
    scan of [MemTotal: %d kB] stores one item. *)
Definition MemTotal_of (line : string) : option Z :=
  match Sscanf line "MemTotal: %d kB" [OUint] with
  | [VUint n] => Some n
  | _ => None
  end.

(** The two channels of a result are not used together. *)
Definition disjoint_channels (r : result) : Prop :=
  fst r = EmptyString \/ snd r = None.

(** The messages of the checks, as texts. *)
Definition cpu_both (c : Z) : string :=
  "Only " ++ FormatInt c ++ " CPU cores detected. SaftOS requires at least 8 cores for testing and 16 for production use.".

Definition cpu_prod (c : Z) : string :=
  FormatInt c ++ " CPU cores detected. SaftOS requires at least 16 cores for production use.".

Definition mem_reported (kib : Z) : string :=
  if kib / 2 ^ 20 <? 1 then FormatInt (kib / 2 ^ 10) ++ "MiB"
  else FormatInt (kib / 2 ^ 20) ++ "GiB".

Definition mem_both (kib : Z) : string :=
  "Only " ++ mem_reported kib ++ " RAM detected. SaftOS requires at least 32GiB for testing and 64GiB for production use.".

Definition mem_prod (kib : Z) : string :=
  mem_reported kib ++ " RAM detected. SaftOS requires at least 64GiB for production use.".

Definition virt_msg (virt : string) : string :=
  "System is virtualized (" ++ virt ++ ") which is not supported in production.".

Definition kvm_msg : string :=
  "SaftOS requires hardware-assisted virtualization, but /dev/kvm does not exist.".

Definition speed_path (dev : string) : string :=
  "/sys/class/net/" ++ dev ++ "/speed".

Definition net_error (dev : string) (m : Z) : error :=
  ErrorString ("unable to determine NIC speed from " ++ speed_path dev
               ++ " (got " ++ FormatInt m ++ ")").

Definition net_both (dev : string) (m : Z) : string :=
  "Link speed of " ++ dev ++ " is only " ++ FormatInt m
  ++ "Mpbs. SaftOS requires at least 1Gbps for testing and 10Gbps for production use.".

Definition net_prod (dev : string) (g : Q) : string :=
  "Link speed of " ++ dev ++ " is " ++ FormatFloat32 g
  ++ "Gbps. SaftOS requires at least 10Gbps for production use.".

Definition no_MemTotal : error :=
  ErrorString "unable to extract MemTotal from /proc/meminfo".

(** [speedGbps] of [NetworkSpeedCheck.Run] for a speed of [m] Mbps. *)
Definition Gbps (m : Z) : Q :=
  float32_div (float32_of_Z m) (float32_of_Z 1000).

(** [m / 1000] written in decimal without trailing zeros, for
    [0 <= m]. *)
Definition milli (m : Z) : string :=
  let r := m mod 1000 in
  FormatInt (m / 1000)
  ++ (if r =? 0 then EmptyString
      else if r mod 100 =? 0 then "." ++ FormatInt (r / 100)
      else if r mod 10 =? 0 then
        "." ++ FormatInt (r / 100) ++ FormatInt (r / 10 mod 10)
      else "." ++ FormatInt (r / 100) ++ FormatInt (r / 10 mod 10)
           ++ FormatInt (r mod 10)).

(** A property of all integers from [0] up to [n - 1], by enumeration. *)
Fixpoint check_below (n : nat) (p : Z -> bool) : bool :=
  match n with
  | O => true
  | S k => p (Z.of_nat k) && check_below k p
  end.

End Spec.

(* ================================================================== *)
(** * Sample hosts                                                     *)
(* ================================================================== *)

Module Samples.
Import Go preflight.

Local Open Scope string_scope.

Definition LF : string := String "010" EmptyString.
Definition TAB : string := String "009" EmptyString.

(** A host in the manner of the unit tests: the three commands answer with
    fixed outputs, the three files have fixed contents. *)
Definition fake (nproc dmidecode detect_virt : string * option error)
    (meminfo : string + error) (kvm : option error) (speed : string + error)
  : Host :=
  {| execCommand := fun name _ =>
       if String.eqb name "/usr/bin/nproc" then nproc
       else if String.eqb name "/usr/sbin/dmidecode" then dmidecode
       else detect_virt;
     Open := fun _ => meminfo;
     Stat := fun _ => kvm;
     ReadFile := fun _ => speed |}.

Definition absent (op path : string) : error := PathError op path (Errno ENOENT).
Definition denied (op path : string) : error := PathError op path (Errno 13).

(** The dmidecode output quoted in the source, of a system with 512 GiB. *)
Definition dmidecode_512G : string :=
  String.concat LF
    ["# dmidecode 3.5";
     "Getting SMBIOS data from sysfs.";
     "SMBIOS 2.8 present.";
     EmptyString;
     "Handle 0x0024, DMI type 19, 31 bytes";
     "Memory Array Mapped Address";
     TAB ++ "Starting Address: 0x00000000000";
     TAB ++ "Ending Address: 0x0007FFFFFFF";
     TAB ++ "Range Size: 2 GB";
     TAB ++ "Physical Array Handle: 0x000A";
     TAB ++ "Partition Width: 1";
     EmptyString;
     "Handle 0x0025, DMI type 19, 31 bytes";
     "Memory Array Mapped Address";
     TAB ++ "Starting Address: 0x0000000100000000k";
     TAB ++ "Ending Address: 0x000000807FFFFFFFk";
     TAB ++ "Range Size: 510 GB";
     TAB ++ "Physical Array Handle: 0x000B";
     TAB ++ "Partition Width: 1";
     EmptyString].

(** A dump in which a record in petabytes stands between two others. *)
Definition dmidecode_PB : string :=
  String.concat LF
    ["Range Size: 2 GB"; "Range Size: 3 PB"; "Range Size: 510 GB"; EmptyString].

Definition no_dmidecode : string * option error :=
  (EmptyString, Some (ExecError "/usr/sbin/dmidecode" (absent "stat" "/usr/sbin/dmidecode"))).

(** A well-equipped physical machine; the variants below change one probe
    each. *)
Definition good : Host :=
  fake ("16" ++ LF, None) (dmidecode_512G, None)
       ("none" ++ LF, Some (ExitError 1))
       (inl ("MemTotal:   32856636 kB" ++ LF)) None (inl ("10000" ++ LF)).

Definition with_nproc (out : string) : Host :=
  fake (out, None) (dmidecode_512G, None) ("none" ++ LF, Some (ExitError 1))
       (inl ("MemTotal:   32856636 kB" ++ LF)) None (inl ("10000" ++ LF)).

Definition with_dmidecode (out : string) : Host :=
  fake ("16" ++ LF, None) (out, None) ("none" ++ LF, Some (ExitError 1))
       (inl ("MemTotal:   32856636 kB" ++ LF)) None (inl ("10000" ++ LF)).

Definition with_meminfo (meminfo : string + error) : Host :=
  fake ("16" ++ LF, None) no_dmidecode ("none" ++ LF, Some (ExitError 1))
       meminfo None (inl ("10000" ++ LF)).

Definition with_virt (r : string * option error) : Host :=
  fake ("16" ++ LF, None) (dmidecode_512G, None) r
       (inl ("MemTotal:   32856636 kB" ++ LF)) None (inl ("10000" ++ LF)).

Definition with_kvm (r : option error) : Host :=
  fake ("16" ++ LF, None) (dmidecode_512G, None)
       ("none" ++ LF, Some (ExitError 1))
       (inl ("MemTotal:   32856636 kB" ++ LF)) r (inl ("10000" ++ LF)).

Definition with_speed (r : string + error) : Host :=
  fake ("16" ++ LF, None) (dmidecode_512G, None)
       ("none" ++ LF, Some (ExitError 1))
       (inl ("MemTotal:   32856636 kB" ++ LF)) None r.

Definition eth0 : NetworkSpeedCheck := mkNetworkSpeedCheck "eth0".

(** Contents of the memory-info file: the sample of the specification (a
    host with 32 GiB), a host with 64 GiB, a file whose only MemTotal line
    carries zero, a file without MemTotal line, and a file whose first
    MemTotal line carries zero and whose second one does not. *)
Definition meminfo_32G : string := "MemTotal:   32856636 kB".

Definition meminfo_64G : string :=
  "MemFree: 1 kB" ++ LF ++ "MemTotal: 65758888 kB" ++ LF.

Definition meminfo_zero : string := "MemTotal:        0 kB".

Definition meminfo_none : string :=
  "MemFree: 1 kB" ++ LF ++ "Cached: 2 kB" ++ LF.

Definition meminfo_zero_first : string :=
  "MemFree: 1 kB" ++ LF ++ "MemTotal: 0 kB" ++ LF
  ++ "MemTotal: 32856636 kB" ++ LF.

(** A decimal numeral beyond the range of a 64-bit integer. *)
Definition twenty_nines : string := "99999999999999999999" ++ LF.

End Samples.

(* ================================================================== *)
(** * Texts of the probes                                              *)
(* ================================================================== *)

(** What the probes print, written as functions of what they report, and
    the classes of characters these texts are made of.  They serve to state
    how the checks read a well-formed answer. *)
Module Texts.
Import Go preflight Spec Samples.

Local Open Scope string_scope.
Local Open Scope Z_scope.

(** Classes of bytes: ASCII; ASCII other than white space; ASCII white
    space; ASCII white space other than the line feed; anything but the
    line feed. *)
Definition ascii_byte (c : ascii) : bool := byte_val c <? 128.

Definition graphic (c : ascii) : bool :=
  (byte_val c <? 128) && negb (IsSpace (byte_val c)).

Definition white (c : ascii) : bool :=
  (byte_val c <? 128) && IsSpace (byte_val c).

Definition blank_byte (c : ascii) : bool :=
  white c && negb (byte_val c =? 10).

Definition no_LF (c : ascii) : bool := negb (byte_val c =? 10).

Definition all_bytes (p : ascii -> bool) (s : string) : bool :=
  forallb p (bytes s).

Definition starts_graphic (l : list ascii) : bool :=
  match l with
  | c :: _ => graphic c
  | [] => false
  end.

(** A non-empty run of blanks; a non-empty word without white space; a text
    that is empty or begins with an ASCII character that is no digit. *)
Definition blanks (s : string) : bool :=
  negb (String.eqb s EmptyString) && all_bytes blank_byte s.

Definition word (s : string) : bool :=
  negb (String.eqb s EmptyString) && all_bytes graphic s.

Definition plain_head (s : string) : bool :=
  match s with
  | EmptyString => true
  | String c _ => ascii_byte c && negb (is_digit c)
  end.

(** The rune and the bytes of an ASCII character. *)
Definition unit_chunk (c : ascii) : Z * list ascii := (byte_val c, [c]).

Definition no_blank_head (l : list Z) : bool :=
  match l with
  | r :: _ => negb (blank r)
  | [] => true
  end.

Definition no_digit_head (l : list Z) : bool :=
  match l with
  | r :: _ => negb (is_digit_rune r)
  | [] => true
  end.

(** The number that the digits [d] denote after the digits already read
    as [acc]. *)
Fixpoint digits_value (d : Decimal.uint) (acc : Z) : Z :=
  match d with
  | Decimal.Nil => acc
  | Decimal.D0 l => digits_value l (10 * acc)
  | Decimal.D1 l => digits_value l (10 * acc + 1)
  | Decimal.D2 l => digits_value l (10 * acc + 2)
  | Decimal.D3 l => digits_value l (10 * acc + 3)
  | Decimal.D4 l => digits_value l (10 * acc + 4)
  | Decimal.D5 l => digits_value l (10 * acc + 5)
  | Decimal.D6 l => digits_value l (10 * acc + 6)
  | Decimal.D7 l => digits_value l (10 * acc + 7)
  | Decimal.D8 l => digits_value l (10 * acc + 8)
  | Decimal.D9 l => digits_value l (10 * acc + 9)
  end.

(** A line of a dmidecode dump that declares a range of [n] [unit]:
    dmidecode prints a tabulation, one space between the parts and nothing
    after the unit; [p0], [s1], [s2], [s3] and [p4] stand for the white space
    at these places. *)
Definition range_line (p0 s1 s2 : string) (n : Z) (s3 unit p4 : string)
  : string :=
  p0 ++ "Range" ++ s1 ++ "Size:" ++ s2 ++ FormatInt n ++ s3 ++ unit ++ p4.

(** A line of the memory-info file that declares a total of [n]: the kernel
    prints blanks before the number and [ kB] after it. *)
Definition MemTotal_line (s : string) (n : Z) (suffix : string) : string :=
  "MemTotal:" ++ s ++ FormatInt n ++ suffix.

(** A dump as a list of lines, each one a text that is no record or the
    declaration of a range. *)
Definition item : Type := (string + Z * string)%type.

Definition render_item (i : item) : string :=
  match i with
  | inl text => text
  | inr (n, unit) => TAB ++ "Range Size: " ++ FormatInt n ++ " " ++ unit
  end.

Definition render (items : list item) : string :=
  String.concat LF (map render_item items).

Fixpoint records_in (items : list item) : list (Z * string) :=
  match items with
  | [] => []
  | inl _ :: rest => records_in rest
  | inr r :: rest => r :: records_in rest
  end.

(** A text holds no line feed and is no record; a range has a size that
    fits 64 bits and a unit that is a word. *)
Definition valid_item (i : item) : bool :=
  match i with
  | inl text =>
    all_bytes no_LF text
    && match range_record text with None => true | Some _ => false end
  | inr (n, unit) => (0 <=? n) && (n <=? maxUint64) && word unit
  end.

Definition sum_sizes (recs : list (Z * string)) : Z :=
  fold_right (fun r acc => fst r + acc) 0 recs.

Definition all_GB (recs : list (Z * string)) : bool :=
  forallb (fun r => String.eqb (snd r) "GB") recs.

(** The first record with an enormous unit. *)
Definition first_huge (recs : list (Z * string)) : option (Z * string) :=
  find (fun r => huge_unit (snd r)) recs.

(** The list that [ScanLines] hands to [deliver]. *)
Definition without_final_empty (ls : list string) : list string :=
  match rev ls with
  | EmptyString :: t => rev t
  | _ => ls
  end.

(** A scanned number fits 64 bits. *)
Definition value_ok (v : value) : Prop :=
  match v with
  | VUint n => 0 <= n <= maxUint64
  | VString _ => True
  end.

(** Sample texts: a line of 65536 bytes, a memory-info file in which it
    precedes the MemTotal line, a memory-info file as the kernel prints it,
    and a dump with two ranges among other lines. *)
Definition long_line : string :=
  of_bytes (repeat "x"%char (Z.to_nat MaxScanTokenSize)).

Definition meminfo_long_first : string :=
  long_line ++ LF ++ "MemTotal:       32856636 kB" ++ LF.

Definition meminfo_kernel : string :=
  MemTotal_line "       " 32856636 " kB" ++ LF
  ++ "MemFree:        12345678 kB" ++ LF.

Definition dump_items : list item :=
  [inl "# dmidecode 3.5"; inl "Memory Array Mapped Address";
   inr (16, "GB"); inl (TAB ++ "Partition Width: 1");
   inl "Memory Array Mapped Address"; inr (32, "GB"); inl EmptyString].

End Texts.

(* ================================================================== *)
(** * Facts about the Go side                                          *)
(* ================================================================== *)

Import Go preflight Spec Samples.

Ltac break_match :=
  repeat match goal with
  | |- context [match ?x with _ => _ end] => destruct x eqn:?
  end.

(** Closed facts are settled by evaluation, conjunct by conjunct. *)
Ltac conjuncts := repeat match goal with |- _ /\ _ => split end.
Ltac evaluate := conjuncts; vm_compute; reflexivity.

Section Enumeration.

Lemma check_below_spec n p :
  check_below n p = true ->
  forall z, (0 <= z < Z.of_nat n)%Z -> p z = true.
Proof.
  induction n as [|n IH]; intros H z Hz; [lia|].
  cbn [check_below] in H. apply andb_prop in H as [H1 H2].
  destruct (Z.eq_dec z (Z.of_nat n)) as [->|Hne]; [exact H1|].
  apply IH; [exact H2|lia].
Qed.

End Enumeration.

Section Float32Facts.
Local Open Scope Q_scope.

Lemma pow2_pos e : 0 < pow2 e.
Proof. apply Qpower_0_lt. reflexivity. Qed.

Lemma pow2_add a b : pow2 (a + b) == pow2 a * pow2 b.
Proof. apply Qpower_plus. discriminate. Qed.

Lemma pow2_nonneg_Z e : (0 <= e)%Z -> pow2 e == inject_Z (2 ^ e).
Proof. intros H. unfold pow2. rewrite Zpower_Qpower by exact H. reflexivity. Qed.

Lemma pow2_opp_mul e : pow2 e * pow2 (- e) == 1.
Proof.
  rewrite <- pow2_add. replace (e + - e)%Z with 0%Z by ring. reflexivity.
Qed.

Lemma div_pow2 x e : x / pow2 e == x * pow2 (- e).
Proof.
  unfold Qdiv. apply Qmult_comp; [reflexivity|].
  unfold pow2. rewrite Qpower_opp. reflexivity.
Qed.

Lemma rne_floor y : (Qfloor y <= rne y)%Z.
Proof.
  unfold rne. destruct (Qcompare _ _); [destruct (Z.even _)| |]; lia.
Qed.

Lemma rne_ge k y : inject_Z k <= y -> (k <= rne y)%Z.
Proof.
  intros H. apply Qfloor_resp_le in H. rewrite Qfloor_Z in H.
  pose proof (rne_floor y). lia.
Qed.

(** [binade x] is not above the binary logarithm of [x]. *)
Lemma binade_le x : 0 < x -> pow2 (binade x) <= x.
Proof.
  intros Hx. unfold binade.
  destruct (Qle_bool _ x) eqn:E.
  - apply Qle_bool_iff. exact E.
  - destruct x as [a b]. cbn [Qnum Qden] in *.
    assert (Ha : (0 < a)%Z) by (unfold Qlt in Hx; cbn in Hx; lia).
    pose proof (Z.log2_spec a Ha) as [La _].
    pose proof (Z.log2_spec (Zpos b) eq_refl) as [_ Lb].
    pose proof (Z.log2_nonneg a) as Na.
    pose proof (Z.log2_nonneg (Zpos b)) as Nb.
    set (la := Z.log2 a) in *. set (lb := Z.log2 (Zpos b)) in *.
    assert (H1 : pow2 (la - lb - 1) * inject_Z (2 ^ (lb + 1))
                 == inject_Z (2 ^ la)).
    { rewrite <- !pow2_nonneg_Z by lia. rewrite <- pow2_add.
      replace (la - lb - 1 + (lb + 1))%Z with la by ring. reflexivity. }
    assert (H2 : inject_Z (Zpos b) <= inject_Z (2 ^ (lb + 1))).
    { rewrite <- Zle_Qle. replace (Z.succ lb) with (lb + 1)%Z in Lb by lia.
      lia. }
    assert (H3 : inject_Z (2 ^ la) <= inject_Z a) by (rewrite <- Zle_Qle; lia).
    assert (H4 : a # b == inject_Z a / inject_Z (Zpos b)) by (apply Qmake_Qdiv).
    rewrite H4. apply Qle_shift_div_l; [reflexivity|].
    pose proof (pow2_pos (la - lb - 1)).
    eapply Qle_trans; [|exact H3]. rewrite <- H1.
    apply Qmult_le_l; assumption.
Qed.

(** Rounding does not go below an integer of less than 24 bits that the
    argument reaches: such an integer is a [float32]. *)
Lemma round32_pos_ge k x :
  (0 < k < 2 ^ 24)%Z -> inject_Z k <= x -> inject_Z k <= round32_pos x.
Proof.
  intros Hk Hx. unfold round32_pos. rewrite Qred_correct.
  assert (Hx0 : 0 < x).
  { eapply Qlt_le_trans; [|exact Hx]. rewrite <- (Zlt_Qlt 0). lia. }
  set (s := ulp_exp x).
  pose proof (pow2_pos s) as Hs. pose proof (pow2_pos (- s)) as Hs'.
  destruct (Z.le_gt_cases s 0) as [Hle|Hgt].
  - assert (H1 : inject_Z (k * 2 ^ (- s)) <= x / pow2 s).
    { rewrite div_pow2, inject_Z_mult, <- pow2_nonneg_Z by lia.
      apply Qmult_le_r; assumption. }
    apply rne_ge in H1. rewrite Zle_Qle in H1.
    rewrite inject_Z_mult, <- pow2_nonneg_Z in H1 by lia.
    apply (Qmult_le_r _ _ (pow2 s)) in H1; [|assumption].
    rewrite <- Qmult_assoc, (Qmult_comm (pow2 (- s))), pow2_opp_mul,
      Qmult_1_r in H1.
    exact H1.
  - assert (Hb : (binade x = s + 23)%Z) by (unfold s, ulp_exp in *; lia).
    pose proof (binade_le x Hx0) as Hbl. rewrite Hb in Hbl.
    assert (H1 : inject_Z (2 ^ 23) <= x / pow2 s).
    { apply Qle_shift_div_l; [assumption|].
      rewrite <- pow2_nonneg_Z by lia. rewrite <- pow2_add.
      replace (23 + s)%Z with (s + 23)%Z by ring. exact Hbl. }
    apply rne_ge in H1. rewrite Zle_Qle in H1.
    apply (Qmult_le_r _ _ (pow2 s)) in H1; [|assumption].
    eapply Qle_trans; [|exact H1].
    rewrite pow2_nonneg_Z by lia. rewrite <- inject_Z_mult, <- Zle_Qle.
    assert (2 <= 2 ^ s)%Z.
    { change 2%Z with (2 ^ 1)%Z at 1. apply Z.pow_le_mono_r; lia. }
    change (2 ^ 24)%Z with 16777216%Z in Hk.
    change (2 ^ 23)%Z with 8388608%Z. nia.
Qed.

Lemma round32_ge k x :
  (0 < k < 2 ^ 24)%Z -> inject_Z k <= x -> inject_Z k <= round32 x.
Proof.
  intros Hk Hx. unfold round32.
  assert (Hx0 : 0 < x).
  { eapply Qlt_le_trans; [|exact Hx]. rewrite <- (Zlt_Qlt 0). lia. }
  rewrite Qgt_alt in Hx0. rewrite Hx0. apply round32_pos_ge; assumption.
Qed.

Lemma round32_pos_nonneg x : 0 < x -> 0 <= round32_pos x.
Proof.
  intros Hx. unfold round32_pos. rewrite Qred_correct.
  set (s := ulp_exp x). pose proof (pow2_pos s) as Hs.
  assert (H : 0 <= x / pow2 s).
  { apply Qle_shift_div_l; [assumption|]. rewrite Qmult_0_l.
    apply Qlt_le_weak, Hx. }
  apply (rne_ge 0) in H. rewrite Zle_Qle in H.
  apply Qmult_le_0_compat; [exact H|apply Qlt_le_weak, Hs].
Qed.

Lemma round32_nonpos x : x <= 0 -> round32 x <= 0.
Proof.
  intros Hx. unfold round32. destruct (Qcompare x 0) eqn:E.
  - apply Qle_refl.
  - rewrite <- Qlt_alt in E.
    assert (H : 0 < - x) by lra.
    apply round32_pos_nonneg in H. lra.
  - rewrite <- Qgt_alt in E. lra.
Qed.

Lemma float32_of_Z_ge k n :
  (0 < k < 2 ^ 24)%Z -> (k <= n)%Z -> inject_Z k <= float32_of_Z n.
Proof.
  intros Hk Hn. apply round32_ge; [exact Hk|]. rewrite <- Zle_Qle. exact Hn.
Qed.

Lemma float32_lt_true x y : x < y -> float32_lt x y = true.
Proof.
  intros H. unfold float32_lt. destruct (Qle_bool y x) eqn:E; [|reflexivity].
  apply Qle_bool_iff in E. lra.
Qed.

Lemma float32_lt_false x y : y <= x -> float32_lt x y = false.
Proof.
  intros H. unfold float32_lt. apply Qle_bool_iff in H. rewrite H.
  reflexivity.
Qed.

(** Comparing the conversion of an integer with a positive threshold [t]
    that is at most [K], when the integers below [K] all convert to less
    than [t], is comparing the integer with [K]. *)
Lemma float32_lt_threshold (t : Q) (K : Z) :
  (0 < K < 2 ^ 24)%Z -> 0 < t -> t <= inject_Z K ->
  check_below (Z.to_nat K) (fun g => float32_lt (float32_of_Z g) t) = true ->
  forall g, float32_lt (float32_of_Z g) t = (g <? K)%Z.
Proof.
  intros HK Ht HtK Hc g.
  destruct (Z.ltb_spec g K) as [Hlt|Hge].
  - destruct (Z.lt_ge_cases g 0) as [Hneg|Hpos].
    + apply float32_lt_true.
      assert (H : float32_of_Z g <= 0).
      { apply round32_nonpos. change 0%Q with (inject_Z 0).
        rewrite <- Zle_Qle. lia. }
      lra.
    + apply (check_below_spec _ _ Hc). lia.
  - apply float32_lt_false.
    eapply Qle_trans; [exact HtK|]. apply float32_of_Z_ge; assumption.
Qed.

End Float32Facts.

Section Float32Reference.
Local Open Scope Z_scope.

(** The model of [float32] agrees with the IEEE 754 operations of the
    standard library on the values that decide the checks: the allowance
    0.9 and the four memory thresholds, conversions of integers on both
    sides of [2^24], and the quotient by 1000 of every speed up to 20000
    Mbps and of some beyond. *)
Lemma float32_agrees_with_binary32 :
  same_value (binary32_div (binary32_of_Z 9) (binary32_of_Z 10))
    (float32_const (9 # 10)) = true
  /\ forallb (fun minimum =>
        same_value
          (binary32_mul (binary32_of_Z minimum)
             (binary32_div (binary32_of_Z 9) (binary32_of_Z 10)))
          (float32_mul (float32_of_Z minimum) (float32_const (9 # 10)))
        && same_value
             (binary32_mul (binary32_of_Z minimum) (binary32_of_Z 1))
             (float32_mul (float32_of_Z minimum) (float32_const 1)))
       [MinMemoryTest; MinMemoryProd] = true
  /\ forallb (fun n => same_value (binary32_of_Z n) (float32_of_Z n))
       [0; 1; 31; 16777215; 16777216; 16777217; 16777218; 16777219;
        33554433; 2 ^ 44 - 1; 2 ^ 63 - 1; 2 ^ 64 - 1; -5; -16777217] = true
  /\ check_below (Z.to_nat 20000)
       (fun m => (m <? 1)
                 || same_value
                      (binary32_div (binary32_of_Z m) (binary32_of_Z 1000))
                      (Gbps m)) = true
  /\ forallb (fun m =>
        same_value (binary32_div (binary32_of_Z m) (binary32_of_Z 1000))
          (Gbps m))
       [16777217; 99999999; 123456789; 2 ^ 40 + 1; 2 ^ 62 + 12345;
        2 ^ 63 - 1] = true.
Proof. evaluate. Qed.

End Float32Reference.

Section Thresholds.
Local Open Scope Z_scope.

Lemma below_test_allowance g :
  float32_lt (float32_of_Z g)
    (float32_mul (float32_of_Z MinMemoryTest) (float32_const (9 # 10)))
  = (g <? 29).
Proof.
  apply float32_lt_threshold;
    [lia | vm_compute; reflexivity | vm_compute; discriminate
     | vm_compute; reflexivity].
Qed.

Lemma below_prod_allowance g :
  float32_lt (float32_of_Z g)
    (float32_mul (float32_of_Z MinMemoryProd) (float32_const (9 # 10)))
  = (g <? 58).
Proof.
  apply float32_lt_threshold;
    [lia | vm_compute; reflexivity | vm_compute; discriminate
     | vm_compute; reflexivity].
Qed.

Lemma below_test_full g :
  float32_lt (float32_of_Z g)
    (float32_mul (float32_of_Z MinMemoryTest) (float32_const 1))
  = (g <? 32).
Proof.
  apply float32_lt_threshold;
    [lia | vm_compute; reflexivity | vm_compute; discriminate
     | vm_compute; reflexivity].
Qed.

Lemma below_prod_full g :
  float32_lt (float32_of_Z g)
    (float32_mul (float32_of_Z MinMemoryProd) (float32_const 1))
  = (g <? 64).
Proof.
  apply float32_lt_threshold;
    [lia | vm_compute; reflexivity | vm_compute; discriminate
     | vm_compute; reflexivity].
Qed.

Lemma Gbps_ge k m :
  0 < k < 2 ^ 24 -> k * 1000 < 2 ^ 24 -> k * 1000 <= m ->
  (inject_Z k <= Gbps m)%Q.
Proof.
  intros Hk Hk' Hm. unfold Gbps, float32_div.
  apply round32_ge; [exact Hk|].
  replace (float32_of_Z 1000) with (inject_Z 1000)
    by (vm_compute; reflexivity).
  apply Qle_shift_div_l; [vm_compute; reflexivity|].
  rewrite <- inject_Z_mult. apply float32_of_Z_ge; lia.
Qed.

(** A link is below 1 Gbps exactly when its speed is below 1000 Mbps. *)
Lemma Gbps_below_test m :
  1 <= m ->
  float32_lt (Gbps m) (float32_of_Z MinNetworkGbpsTest) = (m <? 1000).
Proof.
  intros Hm. destruct (Z.ltb_spec m 1000) as [Hlt|Hge].
  - assert (H : check_below (Z.to_nat 1000)
                  (fun m => (m <? 1)
                            || float32_lt (Gbps m)
                                 (float32_of_Z MinNetworkGbpsTest)) = true)
      by (vm_compute; reflexivity).
    pose proof (check_below_spec _ _ H m ltac:(lia)) as Hc. cbv beta in Hc.
    destruct (Z.ltb_spec m 1); [lia|exact Hc].
  - apply float32_lt_false.
    replace (float32_of_Z MinNetworkGbpsTest) with (inject_Z 1)
      by (vm_compute; reflexivity).
    apply Gbps_ge; lia.
Qed.

(** A link is below 10 Gbps exactly when its speed is below 10000 Mbps. *)
Lemma Gbps_below_prod m :
  1 <= m ->
  float32_lt (Gbps m) (float32_of_Z MinNetworkGbpsProd) = (m <? 10000).
Proof.
  intros Hm. destruct (Z.ltb_spec m 10000) as [Hlt|Hge].
  - assert (H : check_below (Z.to_nat 10000)
                  (fun m => (m <? 1)
                            || float32_lt (Gbps m)
                                 (float32_of_Z MinNetworkGbpsProd)) = true)
      by (vm_compute; reflexivity).
    pose proof (check_below_spec _ _ H m ltac:(lia)) as Hc. cbv beta in Hc.
    destruct (Z.ltb_spec m 1); [lia|exact Hc].
  - apply float32_lt_false.
    replace (float32_of_Z MinNetworkGbpsProd) with (inject_Z 10)
      by (vm_compute; reflexivity).
    apply Gbps_ge; lia.
Qed.

(** Between 1 and 10 Gbps, [%g] prints the speed in Mbps divided by 1000
    with all its digits. *)
Lemma Gbps_figure m :
  1000 <= m < 10000 -> FormatFloat32 (Gbps m) = milli m.
Proof.
  intros Hm.
  assert (H : check_below (Z.to_nat 10000)
                (fun m => (m <? 1000)
                          || String.eqb (FormatFloat32 (Gbps m)) (milli m))
              = true)
    by (vm_compute; reflexivity).
  pose proof (check_below_spec _ _ H m ltac:(lia)) as Hc. cbv beta in Hc.
  destruct (Z.ltb_spec m 1000); [lia|]. apply String.eqb_eq. exact Hc.
Qed.

End Thresholds.

Section AtoiFacts.
Local Open Scope Z_scope.

Lemma ParseInt_syntax s :
  snd (ParseInt s) = Some ErrSyntax -> fst (ParseInt s) = 0.
Proof.
  unfold ParseInt.
  break_match; cbn [fst snd]; intros H; try discriminate H; reflexivity.
Qed.

(** A text that is no decimal numeral is read as zero. *)
Lemma Atoi_syntax s : snd (Atoi s) = Some ErrSyntax -> fst (Atoi s) = 0.
Proof.
  unfold Atoi. destruct (_ && _); [|apply ParseInt_syntax].
  break_match; cbn [fst snd]; intros H; try discriminate H; reflexivity.
Qed.

Lemma ParseInt_range s :
  snd (ParseInt s) = Some ErrRange ->
  fst (ParseInt s) = maxInt64 \/ fst (ParseInt s) = minInt64.
Proof.
  unfold ParseInt. break_match; cbn [fst snd]; intros H; try discriminate H;
    [left|right|left|right]; reflexivity.
Qed.

(** A numeral out of range is not read as zero: it is read as the bound of
    the range on its side. *)
Lemma Atoi_range s :
  snd (Atoi s) = Some ErrRange ->
  fst (Atoi s) = maxInt64 \/ fst (Atoi s) = minInt64.
Proof.
  unfold Atoi. destruct (_ && _); [|apply ParseInt_range].
  break_match; cbn [fst snd]; intros H; discriminate H.
Qed.

End AtoiFacts.

(* ================================================================== *)
(** * Facts about package preflight                                    *)
(* ================================================================== *)

Section Messages.
Local Open Scope string_scope.
Local Open Scope Z_scope.

Lemma Sprintf_cpu_both c :
  Sprintf "Only %d CPU cores detected. SaftOS requires at least %d cores for testing and %d for production use."
    [AInt c; AInt MinCPUTest; AInt MinCPUProd] = cpu_both c.
Proof. reflexivity. Qed.

Lemma Sprintf_cpu_prod c :
  Sprintf "%d CPU cores detected. SaftOS requires at least %d cores for production use."
    [AInt c; AInt MinCPUProd] = cpu_prod c.
Proof. reflexivity. Qed.

Lemma Sprintf_virt virt :
  Sprintf "System is virtualized (%s) which is not supported in production."
    [AString virt] = virt_msg virt.
Proof. reflexivity. Qed.

Lemma Sprintf_speed_path dev :
  Sprintf sysClassNetDevSpeed [AString dev] = speed_path dev.
Proof. reflexivity. Qed.

Lemma virt_msg_nonempty virt : virt_msg virt <> EmptyString.
Proof. discriminate. Qed.

(** The report, once the two comparisons of floats are known to be
    comparisons of the whole gibibytes with [K1] and [K2]. *)
Lemma report_thresholds kib w K1 K2 :
  (forall g, float32_lt (float32_of_Z g)
               (float32_mul (float32_of_Z MinMemoryTest) w) = (g <? K1)) ->
  (forall g, float32_lt (float32_of_Z g)
               (float32_mul (float32_of_Z MinMemoryProd) w) = (g <? K2)) ->
  report kib w =
    if kib / 2 ^ 20 <? K1 then (mem_both kib, None)
    else if kib / 2 ^ 20 <? K2 then (mem_prod kib, None)
    else (EmptyString, None).
Proof.
  intros H1 H2. unfold report. rewrite H1, H2.
  change (uint_div kib (Z.shiftl 1 20)) with (kib / 2 ^ 20).
  change (uint_div kib (Z.shiftl 1 10)) with (kib / 2 ^ 10).
  destruct (kib / 2 ^ 20 <? K1); [reflexivity|].
  destruct (kib / 2 ^ 20 <? K2); reflexivity.
Qed.

Lemma report_full kib :
  report kib (float32_const 1) =
    if kib / 2 ^ 20 <? 32 then (mem_both kib, None)
    else if kib / 2 ^ 20 <? 64 then (mem_prod kib, None)
    else (EmptyString, None).
Proof.
  apply report_thresholds; [exact below_test_full|exact below_prod_full].
Qed.

Lemma report_allowance kib :
  report kib (float32_const (9 # 10)) =
    if kib / 2 ^ 20 <? 29 then (mem_both kib, None)
    else if kib / 2 ^ 20 <? 58 then (mem_prod kib, None)
    else (EmptyString, None).
Proof.
  apply report_thresholds;
    [exact below_test_allowance|exact below_prod_allowance].
Qed.

Lemma report_no_error kib w : snd (report kib w) = None.
Proof.
  unfold report. cbv zeta.
  destruct (float32_lt _ _); [reflexivity|].
  destruct (float32_lt _ _); reflexivity.
Qed.

End Messages.

Section Loops.
Local Open Scope string_scope.
Local Open Scope Z_scope.

Lemma huge_unit_spec unit :
  huge_unit unit = true <->
  unit = "TB" \/ unit = "PB" \/ unit = "EB" \/ unit = "ZB".
Proof.
  unfold huge_unit. rewrite !orb_true_iff, !String.eqb_eq. tauto.
Qed.

(** One turn of the loop over the lines of the dmidecode output. *)
Lemma scan_ranges_cons line rest acc :
  scan_ranges (line :: rest) acc =
    match range_record line with
    | Some (n, unit) =>
      if huge_unit unit then
        (2 ^ 30,
         [Sprintf "Found Memory Array Mapped Address with Range Size %d %s, assuming 1 TiB RAM for preflight check"
            [AInt n; AString unit]])
      else scan_ranges rest (uint_add acc (rangeSizeToKiB n unit))
    | None => scan_ranges rest acc
    end.
Proof.
  cbn [scan_ranges]. unfold range_record.
  destruct (Sscanf _ _ _) as [|[n|s] [|[n'|s'] [|v l]]]; reflexivity.
Qed.

(** Adding the size that the code computes is adding the size in
    unbounded integers, modulo the word. *)
Lemma uint_add_KiB acc n unit :
  uint_add acc (rangeSizeToKiB n unit)
  = (acc + KiB_of_record (n, unit)) mod 2 ^ 64.
Proof.
  unfold uint_add, wrap_uint, rangeSizeToKiB, KiB_of_record, uint_shl,
    uint_shr, wrap_uint.
  repeat match goal with
         | |- context [String.eqb ?a ?b] => destruct (String.eqb a b)
         end;
    try reflexivity; apply Zplus_mod_idemp_r.
Qed.

Lemma scan_ranges_total lines : forall acc,
  0 <= acc < 2 ^ 64 ->
  fst (scan_ranges lines acc) =
    if has_huge (records_of lines) then 2 ^ 30
    else (acc + sum_KiB (records_of lines)) mod 2 ^ 64.
Proof.
  induction lines as [|line rest IH]; intros acc Hacc.
  - cbn. rewrite Z.add_0_r, Z.mod_small; [reflexivity|exact Hacc].
  - rewrite scan_ranges_cons. cbn [records_of].
    destruct (range_record line) as [[n unit]|]; [|apply IH; exact Hacc].
    cbn [has_huge existsb snd sum_KiB fold_right].
    destruct (huge_unit unit); [reflexivity|].
    cbn [orb]. rewrite IH by (apply Z.mod_pos_bound; lia).
    fold (has_huge (records_of rest)). fold (sum_KiB (records_of rest)).
    destruct (has_huge (records_of rest)); [reflexivity|].
    rewrite uint_add_KiB, Zplus_mod_idemp_l, Z.add_assoc. reflexivity.
Qed.

(** The loop is left at the first record with an enormous unit: what
    follows it has no effect, and one line is logged. *)
Lemma scan_ranges_stop pre : forall line post n unit acc,
  has_huge (records_of pre) = false ->
  range_record line = Some (n, unit) -> huge_unit unit = true ->
  scan_ranges (pre ++ line :: post) acc =
    (2 ^ 30,
     [Sprintf "Found Memory Array Mapped Address with Range Size %d %s, assuming 1 TiB RAM for preflight check"
        [AInt n; AString unit]]).
Proof.
  induction pre as [|l pre IH]; intros line post n unit acc Hpre Hl Hu.
  - cbn [app]. rewrite scan_ranges_cons, Hl, Hu. reflexivity.
  - cbn [app]. rewrite scan_ranges_cons. cbn [records_of] in Hpre.
    destruct (range_record l) as [[n' u']|]; [|eapply IH; eassumption].
    cbn [has_huge existsb snd] in Hpre.
    apply orb_false_elim in Hpre as [Hu' Hpre].
    rewrite Hu'. eapply IH; eassumption.
Qed.

Lemma dmidecode_total_ok h out :
  execCommand h "/usr/sbin/dmidecode" ["-t"; "19"] = (out, None) ->
  dmidecode_total h = scan_ranges (Split_lf out) 0.
Proof. intros H. unfold dmidecode_total. rewrite H. reflexivity. Qed.

(** One turn of the loop over the lines of the memory-info file. *)
Lemma scan_meminfo_cons line rest acc :
  scan_meminfo (line :: rest) acc =
    match MemTotal_of line with
    | Some n => n
    | None => scan_meminfo rest acc
    end.
Proof.
  cbn [scan_meminfo]. unfold MemTotal_of.
  destruct (Sscanf _ _ _) as [|[n|s] [|v l]]; reflexivity.
Qed.

Lemma scan_meminfo_none lines acc :
  Forall (fun l => MemTotal_of l = None) lines ->
  scan_meminfo lines acc = acc.
Proof.
  induction 1 as [|l ls Hl _ IH]; [reflexivity|].
  rewrite scan_meminfo_cons, Hl. exact IH.
Qed.

Lemma scan_meminfo_first pre line post v acc :
  Forall (fun l => MemTotal_of l = None) pre -> MemTotal_of line = Some v ->
  scan_meminfo (pre ++ line :: post) acc = v.
Proof.
  induction 1 as [|l ls Hl _ IH]; intros Hv; cbn [app];
    rewrite scan_meminfo_cons.
  - rewrite Hv. reflexivity.
  - rewrite Hl. apply IH, Hv.
Qed.

(** [Run] when the primary source yields nothing. *)
Lemma MemoryCheck_fallback h :
  fst (dmidecode_total h) = 0 ->
  Run mkMemoryCheck h =
    match Open h procMemInfo with
    | inr err => (EmptyString, Some err)
    | inl meminfo =>
      let kib := scan_meminfo (ScanLines meminfo) 0 in
      if kib =? 0 then (EmptyString, Some no_MemTotal)
      else report kib (float32_const (9 # 10))
    end.
Proof.
  intros H. unfold Run, Check_MemoryCheck, MemoryCheck_Run, MemoryCheck_exec.
  destruct (dmidecode_total h) as [t lg]. cbn [fst] in H. subst t.
  cbn [Z.eqb]. destruct (Open h procMemInfo) as [meminfo|err]; [|reflexivity].
  cbv zeta. destruct (scan_meminfo (ScanLines meminfo) 0 =? 0); reflexivity.
Qed.

(** [Run] when the primary source yields a total. *)
Lemma MemoryCheck_primary h :
  fst (dmidecode_total h) <> 0 ->
  Run mkMemoryCheck h = report (fst (dmidecode_total h)) (float32_const 1).
Proof.
  intros H. unfold Run, Check_MemoryCheck, MemoryCheck_Run, MemoryCheck_exec.
  destruct (dmidecode_total h) as [t lg]. cbn [fst] in *.
  destruct (Z.eqb_spec t 0); [contradiction|reflexivity].
Qed.

End Loops.

Section OtherChecks.
Local Open Scope string_scope.
Local Open Scope Z_scope.

(** The policy of [CPUCheck] on the count that [Atoi] returns. *)
Lemma CPUCheck_tiers h out :
  execCommand h "/usr/bin/nproc" ["--all"] = (out, None) ->
  Run mkCPUCheck h =
    let c := fst (Atoi (TrimSpace out)) in
    if c <? 8 then (cpu_both c, None)
    else if c <? 16 then (cpu_prod c, None)
    else (EmptyString, None).
Proof.
  intros H. unfold Run, Check_CPUCheck, CPUCheck_Run. rewrite H. reflexivity.
Qed.

Lemma CPUCheck_failure h out e :
  execCommand h "/usr/bin/nproc" ["--all"] = (out, Some e) ->
  Run mkCPUCheck h = (EmptyString, Some e).
Proof.
  intros H. unfold Run, Check_CPUCheck, CPUCheck_Run. rewrite H. reflexivity.
Qed.

(** An output that is no numeral counts as zero cores. *)
Lemma CPUCheck_no_numeral h out :
  execCommand h "/usr/bin/nproc" ["--all"] = (out, None) ->
  snd (Atoi (TrimSpace out)) = Some ErrSyntax ->
  Run mkCPUCheck h = (cpu_both 0, None).
Proof.
  intros H Hs. rewrite (CPUCheck_tiers h out H). cbv zeta.
  rewrite (Atoi_syntax _ Hs). reflexivity.
Qed.

Lemma NetworkSpeedCheck_unfold h dev :
  Run (mkNetworkSpeedCheck dev) h =
    match ReadFile h (speed_path dev) with
    | inr err => (EmptyString, Some err)
    | inl out =>
      let m := fst (Atoi (TrimSpace out)) in
      if m <? 1 then (EmptyString, Some (net_error dev m))
      else if float32_lt (Gbps m) (float32_of_Z MinNetworkGbpsTest)
           then (net_both dev m, None)
      else if float32_lt (Gbps m) (float32_of_Z MinNetworkGbpsProd)
           then (net_prod dev (Gbps m), None)
      else (EmptyString, None)
    end.
Proof.
  unfold Run, Check_NetworkSpeedCheck, NetworkSpeedCheck_Run. cbn [Dev].
  rewrite Sprintf_speed_path.
  destruct (ReadFile h (speed_path dev)) as [out|err]; reflexivity.
Qed.

(** A speed below 1 is an execution error that names the path and the
    value. *)
Lemma NetworkSpeedCheck_bogus h dev out :
  ReadFile h (speed_path dev) = inl out ->
  fst (Atoi (TrimSpace out)) < 1 ->
  Run (mkNetworkSpeedCheck dev) h
  = (EmptyString, Some (net_error dev (fst (Atoi (TrimSpace out))))).
Proof.
  intros Hread Hm. rewrite NetworkSpeedCheck_unfold, Hread. cbv zeta.
  destruct (Z.ltb_spec (fst (Atoi (TrimSpace out))) 1); [reflexivity|lia].
Qed.

(** A content that is no numeral is such a speed, namely zero. *)
Lemma NetworkSpeedCheck_no_numeral h dev out :
  ReadFile h (speed_path dev) = inl out ->
  snd (Atoi (TrimSpace out)) = Some ErrSyntax ->
  Run (mkNetworkSpeedCheck dev) h = (EmptyString, Some (net_error dev 0)).
Proof.
  intros Hread Hs. rewrite (NetworkSpeedCheck_bogus h dev out Hread);
    rewrite (Atoi_syntax _ Hs); [reflexivity|lia].
Qed.

End OtherChecks.

(* ================================================================== *)
(** * The claims                                                       *)
(* ================================================================== *)

Section MemoryClaims.
Local Open Scope string_scope.
Local Open Scope Z_scope.

(** Claim C1.  When dmidecode exits successfully with output [out], the
    total of the primary source is [spec_total] of the records of [out]:
    the lines that, trimmed, scan as [Range Size: <n> <unit>] are
    converted to kibibytes (GB shifted left by 20, MB by 10, kB as it is,
    bytes shifted right by 10) and added up in a 64-bit word, unless one of
    them has the unit TB, PB, EB or ZB, in which case the total is exactly
    [2^30] KiB.  The loop is left at the first such record: whatever
    follows it, and whatever was added before it, the result is [2^30]
    with the one line logged for that record.  A total that is not zero is
    reported under the multiplier 1.0, that is against 32 and 64 whole
    gibibytes.  In particular the output quoted in the source, with the
    fragments 2 GB and 510 GB, yields 512 GiB in KiB and passes both tiers
    (empty message, nil error), and a fragment in PB between two others
    yields [2^30]. *)
Theorem C1_dmidecode_total :
  (forall h out,
     execCommand h "/usr/sbin/dmidecode" ["-t"; "19"] = (out, None) ->
     let total := fst (dmidecode_total h) in
     total = spec_total (records out)
     /\ (forall pre line post n unit,
           Split_lf out = (pre ++ line :: post)%list ->
           has_huge (records_of pre) = false ->
           range_record line = Some (n, unit) -> huge_unit unit = true ->
           dmidecode_total h =
             (2 ^ 30,
              ["Found Memory Array Mapped Address with Range Size "
               ++ FormatInt n ++ " " ++ unit
               ++ ", assuming 1 TiB RAM for preflight check"]))
     /\ (total <> 0 ->
         Run mkMemoryCheck h =
           if total / 2 ^ 20 <? 32 then (mem_both total, None)
           else if total / 2 ^ 20 <? 64 then (mem_prod total, None)
           else (EmptyString, None)))
  /\ (forall unit, huge_unit unit = true <->
        unit = "TB" \/ unit = "PB" \/ unit = "EB" \/ unit = "ZB")
  /\ records dmidecode_512G = [(2, "GB"); (510, "GB")]
  /\ fst (dmidecode_total (with_dmidecode dmidecode_512G)) = 512 * 2 ^ 20
  /\ Run mkMemoryCheck (with_dmidecode dmidecode_512G) = (EmptyString, None)
  /\ records dmidecode_PB = [(2, "GB"); (3, "PB"); (510, "GB")]
  /\ fst (dmidecode_total (with_dmidecode dmidecode_PB)) = 2 ^ 30.
Proof.
  split; [|split; [exact huge_unit_spec|evaluate]].
  intros h out Hout total. subst total.
  rewrite (dmidecode_total_ok h out Hout).
  split; [|split].
  - rewrite scan_ranges_total by lia. reflexivity.
  - intros pre line post n unit Hsplit Hpre Hline Hunit.
    rewrite Hsplit. erewrite scan_ranges_stop by eassumption. reflexivity.
  - intros Hnz. rewrite <- (dmidecode_total_ok h out Hout) in *.
    rewrite (MemoryCheck_primary h Hnz). apply report_full.
Qed.

Lemma C1_dmidecode_total_witness :
  execCommand (with_dmidecode dmidecode_PB) "/usr/sbin/dmidecode" ["-t"; "19"]
    = (dmidecode_PB, None)
  /\ fst (dmidecode_total (with_dmidecode dmidecode_PB))
     = spec_total (records dmidecode_PB).
Proof.
  split; [reflexivity|].
  exact (proj1 (proj1 C1_dmidecode_total (with_dmidecode dmidecode_PB)
                  dmidecode_PB eq_refl)).
Defined.

(** Claim C2, as stated, fails: with no total from the primary source and
    a memory-info file whose only line is a parsable MemTotal line with the
    value 0, [Run] compares nothing; it returns the execution error
    [no_MemTotal], where the comparison of 0 GiB with the thresholds would
    have given the message for both tiers and a nil error. *)
Lemma C2_counterexample_zero_MemTotal :
  fst (dmidecode_total (with_meminfo (inl meminfo_zero))) = 0
  /\ Open (with_meminfo (inl meminfo_zero)) procMemInfo = inl meminfo_zero
  /\ ScanLines meminfo_zero = ["MemTotal:        0 kB"]
  /\ MemTotal_of "MemTotal:        0 kB" = Some 0
  /\ Run mkMemoryCheck (with_meminfo (inl meminfo_zero))
     = (EmptyString, Some no_MemTotal)
  /\ report 0 (float32_const (9 # 10))
     = ("Only 0MiB RAM detected. SaftOS requires at least 32GiB for testing and 64GiB for production use.",
        None)
  /\ Run mkMemoryCheck (with_meminfo (inl meminfo_zero))
     <> report 0 (float32_const (9 # 10)).
Proof.
  conjuncts; try (vm_compute; reflexivity). vm_compute. discriminate.
Qed.

(** Claim C2, amended.  When the primary source yields a zero total and
    the first line of the memory-info file on which the scan of MemTotal
    succeeds carries a value [v] that is not zero, [Run] compares the whole
    gibibytes of [v] ([v] shifted right by 20), converted to [float32],
    with each tier minimum multiplied by 0.9 in [float32]: below the first
    product the message names both tiers, below the second one the
    production tier only, otherwise it is empty; the error is nil.  The two
    comparisons amount to [g < 29] and [g < 58].  The primary source is
    reported under the multiplier 1.0.  For the file that holds only
    [MemTotal:   32856636 kB] the reported value is 31GiB and [Run] returns
    the message for the production tier only, with a nil error. *)
Theorem C2_fallback_allowance :
  (forall h meminfo pre line post v,
     fst (dmidecode_total h) = 0 ->
     Open h procMemInfo = inl meminfo ->
     ScanLines meminfo = (pre ++ line :: post)%list ->
     Forall (fun l => MemTotal_of l = None) pre ->
     MemTotal_of line = Some v ->
     v <> 0 ->
     let g := Z.shiftr v 20 in
     let below := fun minimum =>
       float32_lt (float32_of_Z g)
         (float32_mul (float32_of_Z minimum) (float32_const (9 # 10))) in
     Run mkMemoryCheck h =
       (if below MinMemoryTest then (mem_both v, None)
        else if below MinMemoryProd then (mem_prod v, None)
        else (EmptyString, None))
     /\ below MinMemoryTest = (g <? 29)
     /\ below MinMemoryProd = (g <? 58))
  /\ (forall h, fst (dmidecode_total h) <> 0 ->
        Run mkMemoryCheck h
        = report (fst (dmidecode_total h)) (float32_const 1))
  /\ fst (dmidecode_total (with_meminfo (inl meminfo_32G))) = 0
  /\ ScanLines meminfo_32G = ["MemTotal:   32856636 kB"]
  /\ MemTotal_of "MemTotal:   32856636 kB" = Some 32856636
  /\ mem_reported 32856636 = "31GiB"
  /\ float32_lt (float32_of_Z 31)
       (float32_mul (float32_of_Z MinMemoryTest) (float32_const (9 # 10)))
     = false
  /\ float32_lt (float32_of_Z 31)
       (float32_mul (float32_of_Z MinMemoryProd) (float32_const (9 # 10)))
     = true
  /\ Run mkMemoryCheck (with_meminfo (inl meminfo_32G))
     = ("31GiB RAM detected. SaftOS requires at least 64GiB for production use.",
        None).
Proof.
  split; [|split; [exact MemoryCheck_primary|evaluate]].
  intros h meminfo pre line post v Hzero Hopen Hlines Hpre Hline Hv g below.
  subst below. cbv beta. rewrite below_test_allowance, below_prod_allowance.
  split; [|split; reflexivity].
  rewrite (MemoryCheck_fallback h Hzero), Hopen, Hlines. cbv zeta.
  rewrite (scan_meminfo_first pre line post v 0 Hpre Hline).
  destruct (Z.eqb_spec v 0) as [|_]; [contradiction|].
  rewrite report_allowance. subst g. rewrite Z.shiftr_div_pow2 by lia.
  reflexivity.
Qed.

Lemma C2_fallback_allowance_witness :
  (fst (dmidecode_total (with_meminfo (inl meminfo_64G))) = 0
   /\ Open (with_meminfo (inl meminfo_64G)) procMemInfo = inl meminfo_64G
   /\ ScanLines meminfo_64G
      = (["MemFree: 1 kB"] ++ "MemTotal: 65758888 kB" :: [])%list
   /\ Forall (fun l => MemTotal_of l = None) ["MemFree: 1 kB"]
   /\ MemTotal_of "MemTotal: 65758888 kB" = Some 65758888
   /\ 65758888 <> 0)
  /\ Run mkMemoryCheck (with_meminfo (inl meminfo_64G)) = (EmptyString, None).
Proof.
  assert (H0 : fst (dmidecode_total (with_meminfo (inl meminfo_64G))) = 0)
    by reflexivity.
  assert (H1 : Forall (fun l => MemTotal_of l = None) ["MemFree: 1 kB"])
    by (repeat constructor).
  assert (H2 : 65758888 <> 0) by discriminate.
  split; [conjuncts; try assumption; vm_compute; reflexivity|].
  exact (proj1 (proj1 C2_fallback_allowance (with_meminfo (inl meminfo_64G))
                  meminfo_64G ["MemFree: 1 kB"] "MemTotal: 65758888 kB" []
                  65758888 H0 eq_refl eq_refl H1 eq_refl H2)).
Defined.

(** Claim C8.  When the primary source yields a zero total, [Run] returns
    an empty message and an error in two cases: the memory-info file cannot
    be opened, and the error is the one of the opening; or no line that the
    scanner delivers is a MemTotal line, and the error is the one whose
    text is "unable to extract MemTotal from /proc/meminfo". *)
Theorem C8_fallback_errors :
  forall h,
    fst (dmidecode_total h) = 0 ->
    (forall err, Open h procMemInfo = inr err ->
       Run mkMemoryCheck h = (EmptyString, Some err))
    /\ (forall meminfo,
          Open h procMemInfo = inl meminfo ->
          Forall (fun l => MemTotal_of l = None) (ScanLines meminfo) ->
          Run mkMemoryCheck h = (EmptyString, Some no_MemTotal))
    /\ Error no_MemTotal = "unable to extract MemTotal from /proc/meminfo".
Proof.
  intros h Hzero. split; [|split; [|reflexivity]].
  - intros err Hopen. rewrite (MemoryCheck_fallback h Hzero), Hopen.
    reflexivity.
  - intros meminfo Hopen Hnone.
    rewrite (MemoryCheck_fallback h Hzero), Hopen. cbv zeta.
    rewrite (scan_meminfo_none _ 0 Hnone). reflexivity.
Qed.

Lemma C8_fallback_errors_witness :
  (fst (dmidecode_total (with_meminfo (inr (absent "open" "/proc/meminfo"))))
   = 0
   /\ Run mkMemoryCheck (with_meminfo (inr (absent "open" "/proc/meminfo")))
      = (EmptyString, Some (absent "open" "/proc/meminfo")))
  /\ (fst (dmidecode_total (with_meminfo (inl meminfo_none))) = 0
      /\ Forall (fun l => MemTotal_of l = None) (ScanLines meminfo_none)
      /\ Run mkMemoryCheck (with_meminfo (inl meminfo_none))
         = (EmptyString, Some no_MemTotal)).
Proof.
  assert (H : Forall (fun l => MemTotal_of l = None) (ScanLines meminfo_none))
    by (repeat constructor).
  split; [split; [reflexivity|]|split; [reflexivity|split; [exact H|]]].
  - exact (proj1 (C8_fallback_errors
                    (with_meminfo (inr (absent "open" "/proc/meminfo")))
                    eq_refl)
             (absent "open" "/proc/meminfo") eq_refl).
  - exact (proj1 (proj2 (C8_fallback_errors
                           (with_meminfo (inl meminfo_none)) eq_refl))
             meminfo_none eq_refl H).
Defined.

(** Claim C10.  When the primary source yields a zero total and the first
    line of the memory-info file on which the scan of MemTotal succeeds
    carries the value 0, [Run] returns the error "unable to extract
    MemTotal", with an empty message, whatever the lines after it hold (the
    scan stops there); it is the very result of a file without MemTotal
    line. *)
Theorem C10_zero_MemTotal :
  forall h meminfo pre line post,
    fst (dmidecode_total h) = 0 ->
    Open h procMemInfo = inl meminfo ->
    ScanLines meminfo = (pre ++ line :: post)%list ->
    Forall (fun l => MemTotal_of l = None) pre ->
    MemTotal_of line = Some 0 ->
    Run mkMemoryCheck h = (EmptyString, Some no_MemTotal)
    /\ (forall h' meminfo',
          fst (dmidecode_total h') = 0 ->
          Open h' procMemInfo = inl meminfo' ->
          Forall (fun l => MemTotal_of l = None) (ScanLines meminfo') ->
          Run mkMemoryCheck h' = Run mkMemoryCheck h).
Proof.
  intros h meminfo pre line post Hzero Hopen Hlines Hpre Hline.
  assert (Hrun : Run mkMemoryCheck h = (EmptyString, Some no_MemTotal)).
  { rewrite (MemoryCheck_fallback h Hzero), Hopen, Hlines. cbv zeta.
    rewrite (scan_meminfo_first pre line post 0 0 Hpre Hline). reflexivity. }
  split; [exact Hrun|].
  intros h' meminfo' Hzero' Hopen' Hnone. rewrite Hrun.
  rewrite (MemoryCheck_fallback h' Hzero'), Hopen'. cbv zeta.
  rewrite (scan_meminfo_none _ 0 Hnone). reflexivity.
Qed.

Lemma C10_zero_MemTotal_witness :
  (fst (dmidecode_total (with_meminfo (inl meminfo_zero_first))) = 0
   /\ ScanLines meminfo_zero_first
      = (["MemFree: 1 kB"] ++ "MemTotal: 0 kB"
         :: ["MemTotal: 32856636 kB"])%list
   /\ Forall (fun l => MemTotal_of l = None) ["MemFree: 1 kB"]
   /\ MemTotal_of "MemTotal: 0 kB" = Some 0)
  /\ Run mkMemoryCheck (with_meminfo (inl meminfo_zero_first))
     = (EmptyString, Some no_MemTotal).
Proof.
  assert (H : Forall (fun l => MemTotal_of l = None) ["MemFree: 1 kB"])
    by (repeat constructor).
  split; [split; [reflexivity|split; [reflexivity|split;
                                        [exact H|reflexivity]]]|].
  exact (proj1 (C10_zero_MemTotal
                  (with_meminfo (inl meminfo_zero_first)) meminfo_zero_first
                  ["MemFree: 1 kB"] "MemTotal: 0 kB"
                  ["MemTotal: 32856636 kB"] eq_refl eq_refl eq_refl H
                  eq_refl)).
Defined.

End MemoryClaims.

Section OtherClaims.
Local Open Scope string_scope.
Local Open Scope Z_scope.

(** Claim C3, the code at the failing input.  The claim takes the count to
    be 0 whenever the output of nproc does not parse as an integer, which
    gives the message for both tiers (as it does for the output "zero").
    For an output of twenty nines [Atoi] fails with a range error and
    returns the largest 64-bit integer, not 0: [Run] returns an empty
    message and a nil error, so the host passes both tiers on a count that
    was never read.  (For the outputs that [Atoi] reads, and for those that
    are no numeral, the policy of the claim holds: [CPUCheck_tiers],
    [CPUCheck_no_numeral], [CPUCheck_failure].) *)
Theorem C3_CPUCheck_count_out_of_range :
  Atoi (TrimSpace twenty_nines) = (maxInt64, Some ErrRange)
  /\ Run mkCPUCheck (with_nproc twenty_nines) = (EmptyString, None)
  /\ Atoi (TrimSpace ("zero" ++ LF)) = (0, Some ErrSyntax)
  /\ Run mkCPUCheck (with_nproc ("zero" ++ LF))
     = ("Only 0 CPU cores detected. SaftOS requires at least 8 cores for testing and 16 for production use.",
        None).
Proof. evaluate. Qed.

(** Claim C4.  When the content of the speed file, trimmed, is read by
    [Atoi] as [m] with [1 <= m], [Run] computes [g], the [float32]
    quotient of [m] by 1000, and returns a nil error with: the message
    that gives [m] in Mbps and both minimums (1 and 10 Gbps) if [g < 1];
    else the message that gives [g] in Gbps, printed with [%g], and the
    production minimum only if [g < 10]; else the empty message.  The two
    comparisons amount to [m < 1000] and [m < 10000], and between them the
    figure printed is [m / 1000] with all its decimals.  For the content
    2500 the quotient is 2.5, not below 1 and below 10, and the message
    reports 2.5Gbps. *)
Theorem C4_network_tiers :
  (forall h dev out,
     ReadFile h (speed_path dev) = inl out ->
     let m := fst (Atoi (TrimSpace out)) in
     1 <= m ->
     let g := Gbps m in
     Run (mkNetworkSpeedCheck dev) h =
       (if float32_lt g (float32_of_Z 1) then net_both dev m
        else if float32_lt g (float32_of_Z 10) then net_prod dev g
        else EmptyString, None)
     /\ float32_lt g (float32_of_Z 1) = (m <? 1000)
     /\ float32_lt g (float32_of_Z 10) = (m <? 10000)
     /\ (1000 <= m < 10000 -> FormatFloat32 g = milli m))
  /\ Atoi (TrimSpace ("2500" ++ LF)) = (2500, None)
  /\ Gbps 2500 = (5 # 2)%Q
  /\ float32_lt (Gbps 2500) (float32_of_Z 1) = false
  /\ float32_lt (Gbps 2500) (float32_of_Z 10) = true
  /\ Run eth0 (with_speed (inl ("2500" ++ LF)))
     = ("Link speed of eth0 is 2.5Gbps. SaftOS requires at least 10Gbps for production use.",
        None).
Proof.
  split; [|evaluate].
  intros h dev out Hread m Hm g.
  split; [|split; [apply Gbps_below_test; exact Hm
                  |split; [apply Gbps_below_prod; exact Hm
                          |apply Gbps_figure]]].
  rewrite NetworkSpeedCheck_unfold, Hread. cbv zeta. fold m. fold g.
  destruct (Z.ltb_spec m 1); [lia|].
  change (float32_of_Z MinNetworkGbpsTest) with (float32_of_Z 1).
  change (float32_of_Z MinNetworkGbpsProd) with (float32_of_Z 10).
  destruct (float32_lt g (float32_of_Z 1)); [reflexivity|].
  destruct (float32_lt g (float32_of_Z 10)); reflexivity.
Qed.

Lemma C4_network_tiers_witness :
  (ReadFile (with_speed (inl ("100" ++ LF))) (speed_path "eth0")
   = inl ("100" ++ LF)
   /\ 1 <= fst (Atoi (TrimSpace ("100" ++ LF))))
  /\ Run eth0 (with_speed (inl ("100" ++ LF)))
     = ("Link speed of eth0 is only 100Mpbs. SaftOS requires at least 1Gbps for testing and 10Gbps for production use.",
        None).
Proof.
  assert (H : 1 <= fst (Atoi (TrimSpace ("100" ++ LF))))
    by (vm_compute; discriminate).
  split; [split; [reflexivity|exact H]|].
  exact (proj1 (proj1 C4_network_tiers (with_speed (inl ("100" ++ LF)))
                  "eth0" ("100" ++ LF) eq_refl H)).
Defined.

(** Claim C5.  Let the detection command return the output [out] and the
    error [err] (non-nil when it exits with a non-zero status).  [Run]
    returns an empty message and a nil error exactly when [err] is non-nil
    and the trimmed output is "none"; with a non-nil [err] and any other
    output it returns [err] and an empty message; with a nil [err] it
    returns a nil error and a message, never empty, that names the trimmed
    output as the technology, as for the output "kvm". *)
Theorem C5_VirtCheck :
  (forall h out err,
     execCommand h "/usr/bin/systemd-detect-virt" ["--vm"] = (out, err) ->
     let virt := TrimSpace out in
     (Run mkVirtCheck h = (EmptyString, None)
      <-> err <> None /\ virt = "none")
     /\ (forall e, err = Some e -> virt <> "none" ->
           Run mkVirtCheck h = (EmptyString, Some e))
     /\ (err = None ->
           Run mkVirtCheck h = (virt_msg virt, None)
           /\ virt_msg virt <> EmptyString))
  /\ Run mkVirtCheck (with_virt ("none" ++ LF, Some (ExitError 1)))
     = (EmptyString, None)
  /\ Run mkVirtCheck (with_virt ("kvm" ++ LF, None))
     = ("System is virtualized (kvm) which is not supported in production.",
        None).
Proof.
  split; [|evaluate].
  intros h out err H virt.
  unfold Run, Check_VirtCheck, VirtCheck_Run. rewrite H. fold virt.
  rewrite Sprintf_virt.
  destruct err as [e|].
  - destruct (String.eqb_spec virt "none") as [Heq|Hne].
    + split; [|split].
      * split; [intros _; split; [discriminate|exact Heq]|reflexivity].
      * intros e' _ Hv. contradiction.
      * discriminate.
    + split; [|split].
      * split; [discriminate|intros [_ Hv]; contradiction].
      * intros e' He _. congruence.
      * discriminate.
  - split; [|split].
    + split; [intros Hm; exfalso; apply (virt_msg_nonempty virt); congruence
             |intros [Hn _]; contradiction].
    + discriminate.
    + intros _. split; [reflexivity|apply virt_msg_nonempty].
Qed.

Lemma C5_VirtCheck_witness :
  execCommand (with_virt ("qemu" ++ LF, None)) "/usr/bin/systemd-detect-virt"
    ["--vm"] = ("qemu" ++ LF, None)
  /\ Run mkVirtCheck (with_virt ("qemu" ++ LF, None))
     = ("System is virtualized (qemu) which is not supported in production.",
        None).
Proof.
  split; [reflexivity|].
  exact (proj1 (proj2 (proj2 (proj1 C5_VirtCheck
                                (with_virt ("qemu" ++ LF, None))
                                ("qemu" ++ LF) None eq_refl)) eq_refl)).
Defined.

(** Claim C6.  [Run] returns a non-empty message with a nil error exactly
    when the stat of the device node fails with an error that is a
    does-not-exist error; the message is then the one that says that
    hardware-assisted virtualization is required and that /dev/kvm does not
    exist.  When the node exists the message is empty and the error nil;
    any other error of the stat is returned as it is, with an empty
    message. *)
Theorem C6_KVMHostCheck :
  (forall h,
     ((fst (Run mkKVMHostCheck h) <> EmptyString
       /\ snd (Run mkKVMHostCheck h) = None)
      <-> exists e, Stat h devKvm = Some e /\ Is_ErrNotExist e = true)
     /\ (forall e, Stat h devKvm = Some e -> Is_ErrNotExist e = true ->
           Run mkKVMHostCheck h = (kvm_msg, None))
     /\ (Stat h devKvm = None -> Run mkKVMHostCheck h = (EmptyString, None))
     /\ (forall e, Stat h devKvm = Some e -> Is_ErrNotExist e = false ->
           Run mkKVMHostCheck h = (EmptyString, Some e)))
  /\ Is_ErrNotExist (absent "stat" "/dev/kvm") = true
  /\ Is_ErrNotExist (denied "stat" "/dev/kvm") = false
  /\ Run mkKVMHostCheck (with_kvm (Some (absent "stat" "/dev/kvm")))
     = ("SaftOS requires hardware-assisted virtualization, but /dev/kvm does not exist.",
        None)
  /\ Run mkKVMHostCheck (with_kvm None) = (EmptyString, None)
  /\ Run mkKVMHostCheck (with_kvm (Some (denied "stat" "/dev/kvm")))
     = (EmptyString, Some (denied "stat" "/dev/kvm")).
Proof.
  split; [|evaluate].
  intros h. unfold Run, Check_KVMHostCheck, KVMHostCheck_Run.
  destruct (Stat h devKvm) as [e|].
  - destruct (Is_ErrNotExist e) eqn:E; cbn [fst snd].
    + split; [|split; [|split]].
      * split; [intros _; exists e; split; [reflexivity|exact E]
               |intros _; split; [discriminate|reflexivity]].
      * reflexivity.
      * discriminate.
      * intros e' He' Hf. congruence.
    + split; [|split; [|split]].
      * split; [intros [Hm _]; contradiction
               |intros [e' [He' Ht]]; congruence].
      * intros e' He' Ht. congruence.
      * discriminate.
      * intros e' He' _. congruence.
  - cbn [fst snd]. split; [|split; [|split]].
    + split; [intros [Hm _]; contradiction
             |intros [e' [He' _]]; discriminate].
    + discriminate.
    + reflexivity.
    + discriminate.
Qed.

Lemma C6_KVMHostCheck_witness :
  (Stat (with_kvm (Some (absent "stat" "/dev/kvm"))) devKvm
   = Some (absent "stat" "/dev/kvm")
   /\ Is_ErrNotExist (absent "stat" "/dev/kvm") = true)
  /\ Run mkKVMHostCheck (with_kvm (Some (absent "stat" "/dev/kvm")))
     = (kvm_msg, None).
Proof.
  split; [split; reflexivity|].
  exact (proj1 (proj2 (proj1 C6_KVMHostCheck
                         (with_kvm (Some (absent "stat" "/dev/kvm")))))
           (absent "stat" "/dev/kvm") eq_refl eq_refl).
Defined.

(** Claim C7, the code at the failing input.  The claim has every content
    that fails to parse treated as the speed 0, hence answered by the
    execution error that names the path and the value (as the content
    "fast" and the sentinel -1 are).  For a content of twenty nines [Atoi]
    fails with a range error and returns the largest 64-bit integer, not
    0: [Run] returns an empty message and a nil error, so the link passes
    both tiers on a speed that was never read.  (For every content that
    [Atoi] reads as less than 1, and for every content that is no numeral,
    the error of the claim is returned: [NetworkSpeedCheck_bogus],
    [NetworkSpeedCheck_no_numeral].) *)
Theorem C7_NetworkSpeedCheck_speed_out_of_range :
  Atoi (TrimSpace twenty_nines) = (maxInt64, Some ErrRange)
  /\ Run eth0 (with_speed (inl twenty_nines)) = (EmptyString, None)
  /\ Atoi (TrimSpace ("fast" ++ LF)) = (0, Some ErrSyntax)
  /\ Run eth0 (with_speed (inl ("fast" ++ LF)))
     = (EmptyString,
        Some (ErrorString
                "unable to determine NIC speed from /sys/class/net/eth0/speed (got 0)"))
  /\ Run eth0 (with_speed (inl ("-1" ++ LF)))
     = (EmptyString,
        Some (ErrorString
                "unable to determine NIC speed from /sys/class/net/eth0/speed (got -1)")).
Proof. evaluate. Qed.

(** Claim C9.  Whatever the commands and the files of the host answer, no
    check returns a non-empty message together with a non-nil error: the
    message is empty or the error is nil. *)
Theorem C9_disjoint_channels :
  forall h dev,
    disjoint_channels (Run mkCPUCheck h)
    /\ disjoint_channels (Run mkMemoryCheck h)
    /\ disjoint_channels (Run mkVirtCheck h)
    /\ disjoint_channels (Run mkKVMHostCheck h)
    /\ disjoint_channels (Run (mkNetworkSpeedCheck dev) h).
Proof.
  intros h dev. unfold disjoint_channels. conjuncts.
  - unfold Run, Check_CPUCheck, CPUCheck_Run.
    destruct (execCommand h _ _) as [out [e|]]; [left; reflexivity|].
    cbv zeta. destruct (_ <? _); [right; reflexivity|].
    destruct (_ <? _); right; reflexivity.
  - unfold Run, Check_MemoryCheck, MemoryCheck_Run, MemoryCheck_exec.
    destruct (dmidecode_total h) as [t lg].
    destruct (t =? 0); [|right; apply report_no_error].
    destruct (Open h procMemInfo) as [meminfo|err]; [|left; reflexivity].
    destruct (_ =? 0); [left; reflexivity|right; apply report_no_error].
  - unfold Run, Check_VirtCheck, VirtCheck_Run.
    destruct (execCommand h _ _) as [out [e|]]; [|right; reflexivity].
    destruct (String.eqb _ _); left; reflexivity.
  - unfold Run, Check_KVMHostCheck, KVMHostCheck_Run.
    destruct (Stat h devKvm) as [e|]; [|left; reflexivity].
    destruct (Is_ErrNotExist e); [right|left]; reflexivity.
  - rewrite NetworkSpeedCheck_unfold.
    destruct (ReadFile h _) as [out|err]; [|left; reflexivity].
    cbv zeta. destruct (_ <? 1); [left; reflexivity|].
    destruct (float32_lt _ _); [right; reflexivity|].
    destruct (float32_lt _ _); right; reflexivity.
Qed.

End OtherClaims.
